(** * Stock scanner: technical indicators and setup classification

    A shallow embedding of [calculate_technicals] from [src/scan.py] and
    from [src/api/scan_disabled.py], together with the part of numpy and
    pandas that the function calls.

    Numbers.  The engine works on float64 values.  They are modelled as
    exact rationals extended with the three special values of IEEE 754
    that the code can produce: the two infinities and NaN.  Rounding and
    the sign of zero are not modelled; division by zero, [0/0], arithmetic
    on infinities and comparisons with NaN are.  A rational computed here
    is therefore the value before rounding: the float64 of the program is
    close to it and need not equal it.  The theorems therefore avoid
    equating a computed float with a rational expression, except where the
    value of the program is exact: the maximum of a window (one of its
    inputs), the value 100 of a saturated index, a whole number below 2^53.

    Absence.  The code has two ways of saying "no value": the Python
    object [None], which only [pad] creates, and the float NaN, which the
    rolling windows of pandas produce while they warm up.  Both are kept
    apart here, because comparing with [None] raises [TypeError] while
    comparing with NaN is just false.

    The rest of the two files is embedded as well: [parse_price],
    [get_all_screener_data], [get_tickers] and [handler].  What they get
    from the network is a parameter: the outcome of the screener request
    for each exchange, and the outcome of each call of [yf.download].  The
    sort of pandas is a parameter too, constrained only to order by price. *)

From Stdlib Require Import String Ascii Bool ZArith QArith Qminmax Lia Lqa
  List Permutation Sorted.
From Stdlib Require DecimalString DecimalNat DecimalFacts.
Import ListNotations.

Local Open Scope Q_scope.

(** ** float64, up to rounding *)

Inductive float : Type :=
| Fin (q : Q)
| PInf
| NInf
| NaN.

Definition Qltb (a b : Q) : bool :=
  match a ?= b with Lt => true | _ => false end.

Definition Qeqb (a b : Q) : bool :=
  match a ?= b with Eq => true | _ => false end.

Definition fneg (x : float) : float :=
  match x with
  | Fin a => Fin (- a)
  | PInf => NInf
  | NInf => PInf
  | NaN => NaN
  end.

Definition fadd (x y : float) : float :=
  match x, y with
  | NaN, _ | _, NaN => NaN
  | Fin a, Fin b => Fin (a + b)
  | PInf, NInf | NInf, PInf => NaN
  | PInf, _ | _, PInf => PInf
  | NInf, _ | _, NInf => NInf
  end.

Definition fsub (x y : float) : float := fadd x (fneg y).

(** The infinity that has the sign of [a], NaN when [a] is zero. *)
Definition inf_of_sign (a : Q) : float :=
  if Qltb 0 a then PInf else if Qltb a 0 then NInf else NaN.

Definition fmul (x y : float) : float :=
  match x, y with
  | NaN, _ | _, NaN => NaN
  | Fin a, Fin b => Fin (a * b)
  | Fin a, PInf | PInf, Fin a => inf_of_sign a
  | Fin a, NInf | NInf, Fin a => inf_of_sign (- a)
  | PInf, PInf | NInf, NInf => PInf
  | PInf, NInf | NInf, PInf => NInf
  end.

Definition fdiv (x y : float) : float :=
  match x, y with
  | NaN, _ | _, NaN => NaN
  | Fin a, Fin b => if Qeqb b 0 then inf_of_sign a else Fin (a / b)
  | Fin _, (PInf | NInf) => Fin 0
  | PInf, Fin b => if Qltb b 0 then NInf else PInf
  | NInf, Fin b => if Qltb b 0 then PInf else NInf
  | (PInf | NInf), (PInf | NInf) => NaN
  end.

(** [x < y] on floats; false as soon as one side is NaN. *)
Definition flt (x y : float) : bool :=
  match x, y with
  | NaN, _ | _, NaN => false
  | Fin a, Fin b => Qltb a b
  | NInf, (Fin _ | PInf) => true
  | Fin _, PInf => true
  | _, _ => false
  end.

Definition fgt (x y : float) : bool := flt y x.

Definition is_nan (x : float) : bool :=
  match x with NaN => true | _ => false end.

(** ** Python values, exceptions, indexing *)

Inductive pyval : Type :=
| PyNone
| PyFloat (x : float).

Inductive exn : Type :=
| IndexError
| TypeError.

Inductive result (A : Type) : Type :=
| Ok (a : A)
| Raise (e : exn).

Arguments Ok {A} a.
Arguments Raise {A} e.

Definition bind {A B : Type} (m : result A) (k : A -> result B) : result B :=
  match m with
  | Ok a => k a
  | Raise e => Raise e
  end.

Notation "x <- m ;; k" := (bind m (fun x => k))
  (at level 61, m at next level, right associativity).

(** Python's [a and b] on already evaluated conditions is [andb]; when the
    right operand is an expression that may raise, it is only evaluated if
    the left one is true. *)
Definition and_then (a b : result bool) : result bool :=
  x <- a ;; if x then b else Ok false.

Infix "&&&" := and_then (at level 40, left associativity).

(** [l[i]] for a list or a numpy array: a negative index counts from the
    end, an index out of range raises. *)
Definition py_index {A : Type} (l : list A) (i : Z) : result A :=
  let n := Z.of_nat (length l) in
  let j := if (i <? 0)%Z then (i + n)%Z else i in
  if ((0 <=? j)%Z && (j <? n)%Z)%bool then
    match nth_error l (Z.to_nat j) with
    | Some x => Ok x
    | None => Raise IndexError
    end
  else Raise IndexError.

(** [v is not None] *)
Definition is_not_None (v : pyval) : bool :=
  match v with PyNone => false | PyFloat _ => true end.

(** A float operand taken from a Python list: [None] is not a number. *)
Definition as_float (v : pyval) : result float :=
  match v with
  | PyNone => Raise TypeError
  | PyFloat x => Ok x
  end.

(** [c > v] and [c < v] for a float [c] and a list entry [v]. *)
Definition py_gt (c : float) (v : pyval) : result bool :=
  x <- as_float v ;; Ok (fgt c x).

Definition py_lt (c : float) (v : pyval) : result bool :=
  x <- as_float v ;; Ok (flt c x).

(** [v * k] for a list entry [v] and a float constant [k]. *)
Definition py_mul (v : pyval) (k : float) : result float :=
  x <- as_float v ;; Ok (fmul x k).

(** The value is missing: [None] or NaN. *)
Definition is_absent (v : pyval) : bool :=
  match v with
  | PyNone => true
  | PyFloat x => is_nan x
  end.

(** ** numpy and pandas *)

(** [np.diff a], that is [a[1:] - a[:-1]]. *)
Fixpoint np_diff (a : list Q) : list Q :=
  match a with
  | x :: (y :: _) as t => (y - x) :: np_diff t
  | _ => []
  end.

(** [np.where(delta > 0, delta, 0)] and [np.where(delta < 0, -delta, 0)]. *)
Definition where_pos (delta : list Q) : list Q :=
  map (fun d => if Qltb 0 d then d else 0) delta.

Definition where_neg (delta : list Q) : list Q :=
  map (fun d => if Qltb d 0 then - d else 0) delta.

(** [Series.rolling(window).mean()] with the default [min_periods = window],
    as pandas computes it for a fixed window: one pass that keeps the number
    of observations and their running sum, drops the value that leaves the
    window, adds the one that enters, and emits NaN until the window is
    full.  The sum and the quotient are exact here; pandas rounds each of
    them, so its entry is close to the rational emitted here, not equal. *)
Definition add_mean (x : Q) (st : nat * Q) : nat * Q :=
  (S (fst st), snd st + x).

Definition remove_mean (x : Q) (st : nat * Q) : nat * Q :=
  (pred (fst st), snd st - x).

Definition calc_mean (minp : nat) (st : nat * Q) : float :=
  if ((minp <=? fst st)%nat && (0 <? fst st)%nat)%bool
  then Fin (snd st / inject_Z (Z.of_nat (fst st)))
  else NaN.

Fixpoint roll_mean_loop (w minp : nat) (xs todo : list Q) (i : nat)
    (st : nat * Q) : list float :=
  match todo with
  | [] => []
  | x :: rest =>
      let st1 := if (w <=? i)%nat then remove_mean (nth (i - w) xs 0) st else st in
      let st2 := add_mean x st1 in
      calc_mean minp st2 :: roll_mean_loop w minp xs rest (S i) st2
  end.

Definition rolling_mean (w : nat) (xs : list Q) : list float :=
  roll_mean_loop w w xs xs 0 (0%nat, 0).

(** [xs[lo:hi]] *)
Definition slice (xs : list Q) (lo hi : nat) : list Q :=
  firstn (hi - lo) (skipn lo xs).

Fixpoint Qmax_list (x : Q) (l : list Q) : Q :=
  match l with
  | [] => x
  | y :: l' => Qmax_list (if Qltb x y then y else x) l'
  end.

(** [Series.rolling(window).max()]: NaN until the window is full, then the
    largest of the [w] values that end at the index. *)
Definition rolling_max (w : nat) (xs : list Q) : list float :=
  map (fun i =>
         if (S i <? w)%nat then NaN
         else match slice xs (S i - w) (S i) with
              | [] => NaN
              | x :: l => Fin (Qmax_list x l)
              end)
      (seq 0 (length xs)).

(** [Series.tolist()]: NaN stays a float. *)
Definition tolist (s : list float) : list pyval := map PyFloat s.

(** [roll_up / roll_down], element by element. *)
Fixpoint series_div (a b : list float) : list float :=
  match a, b with
  | x :: a', y :: b' => fdiv x y :: series_div a' b'
  | _, _ => []
  end.

(** [100 - (100 / (1 + rs))], before rounding.  With [rs] infinite the
    quotient is 0 and the result is 100, with or without rounding. *)
Definition rsi_of_rs (rs : float) : float :=
  fsub (Fin 100) (fdiv (Fin 100) (fadd (Fin 1) rs)).

(** ** The data frame *)

(** One row of the frame.  Prices are finite numbers and the volume is an
    integer; a frame with missing cells (NaN) is outside this model. *)
Record Bar : Type := mkBar {
  Open : Q;
  High : Q;
  Low : Q;
  Close : Q;
  Volume : Z
}.

Definition DataFrame : Type := list Bar.

(** The dictionary that [calculate_technicals] returns, one field per key. *)
Record Technicals : Type := mkTechnicals {
  res_sma20 : list pyval;
  res_sma50 : list pyval;
  res_valid : bool;
  res_setup : string
}.

Definition Breakout : string := "Breakout setup".
Definition PullbackBounce : string := "Pullback & bounce setup".
Definition BullishMomentum : string := "Bullish momentum setup".
Definition NoSetup : string := "No clear setup".

(** The local function [pad] of both files. *)
Definition pad (arr : list pyval) (length : nat) : list pyval :=
  let diff := (Z.of_nat length - Z.of_nat (List.length arr))%Z in
  repeat PyNone (Z.to_nat diff) ++ arr.

(** ** src/scan.py *)

Module Scan.

Section Frame.
Variable df : DataFrame.

Definition closes : list Q := map Close df.
Definition highs : list Q := map High df.
Definition lows : list Q := map Low df.
Definition volumes : list Z := map Volume df.
Definition opens : list Q := map Open df.

Definition sma20 : list pyval :=
  pad (tolist (rolling_mean 20 closes)) (length closes).
Definition sma50 : list pyval :=
  pad (tolist (rolling_mean 50 closes)) (length closes).

Definition delta : list Q := np_diff closes.
Definition up : list Q := where_pos delta.
Definition down : list Q := where_neg delta.
Definition roll_up : list float := rolling_mean 14 up.
Definition roll_down : list float := rolling_mean 14 down.
Definition rs : list float := series_div roll_up roll_down.
Definition rsi : list pyval :=
  pad (tolist (map rsi_of_rs rs)) (length closes).

Definition i : Z := (Z.of_nat (length closes) - 1)%Z.

Definition high20 : list pyval :=
  pad (tolist (rolling_max 20 highs)) (length closes).
Definition avg_vol20 : list pyval :=
  pad (tolist (rolling_mean 20 (map inject_Z volumes))) (length closes).

Definition breakout : result bool :=
  if (0 <=? i - 1)%Z then
    c <- py_index closes i ;;
    h <- py_index high20 (i - 1) ;;
    py_gt (Fin c) h
  else Ok false.

Definition pullback_bounce : result bool :=
  (s <- py_index sma50 i ;;
   if is_not_None s then
     c <- py_index closes i ;;
     s' <- py_index sma50 i ;;
     py_gt (Fin c) s'
   else Ok false)
  &&&
  (g <- (if (0 <=? i - 1)%Z
         then s <- py_index sma20 (i - 1) ;; Ok (is_not_None s)
         else Ok false) ;;
   if g then
     l <- py_index lows (i - 1) ;;
     s <- py_index sma20 (i - 1) ;;
     py_lt (Fin l) s
   else Ok false)
  &&&
  (if (0 <=? i - 1)%Z then
     c <- py_index closes i ;;
     c' <- py_index closes (i - 1) ;;
     Ok (Qltb c' c)
   else Ok false).

Definition volume_spike : result bool :=
  a <- py_index avg_vol20 i ;;
  if is_not_None a then
    v <- py_index volumes i ;;
    a' <- py_index avg_vol20 i ;;
    m <- py_mul a' (Fin (3 # 2)) ;;
    Ok (fgt (Fin (inject_Z v)) m)
  else Ok false.

Definition big_green : result bool :=
  if (0 <=? i - 1)%Z then
    (c <- py_index closes i ;;
     o <- py_index opens i ;;
     Ok (Qltb o c))
    &&&
    (c <- py_index closes i ;;
     h <- py_index highs (i - 1) ;;
     Ok (Qltb h c))
  else Ok false.

Definition rsi_strength : result bool :=
  (r <- py_index rsi i ;; Ok (is_not_None r))
  &&&
  (r <- py_index rsi i ;; py_lt (Fin 55) r).

Definition above_sma20 : result bool :=
  (s <- py_index sma20 i ;; Ok (is_not_None s))
  &&&
  (c <- py_index closes i ;;
   s <- py_index sma20 i ;;
   py_gt (Fin c) s).

Definition bullish_momentum : result bool :=
  vs <- volume_spike ;;
  bg <- big_green ;;
  rstr <- rsi_strength ;;
  ab <- above_sma20 ;;
  Ok (vs && bg && rstr && ab)%bool.

Definition calculate_technicals : result Technicals :=
  b <- breakout ;;
  p <- pullback_bounce ;;
  m <- bullish_momentum ;;
  let valid := (b || p || m)%bool in
  let setup :=
    if b then Breakout
    else if p then PullbackBounce
    else if m then BullishMomentum
    else NoSetup in
  Ok {| res_sma20 := sma20; res_sma50 := sma50;
        res_valid := valid; res_setup := setup |}.

End Frame.

End Scan.

(** ** src/api/scan_disabled.py *)

Module ScanDisabled.

Section Frame.
Variable df : DataFrame.

Definition closes : list Q := map Close df.
Definition highs : list Q := map High df.
Definition lows : list Q := map Low df.
Definition volumes : list Z := map Volume df.
Definition opens : list Q := map Open df.

Definition sma20 : list pyval :=
  pad (tolist (rolling_mean 20 closes)) (length closes).
Definition sma50 : list pyval :=
  pad (tolist (rolling_mean 50 closes)) (length closes).

Definition delta : list Q := np_diff closes.
Definition up : list Q := where_pos delta.
Definition down : list Q := where_neg delta.
Definition roll_up : list float := rolling_mean 14 up.
Definition roll_down : list float := rolling_mean 14 down.
Definition rs : list float := series_div roll_up roll_down.
Definition rsi : list pyval :=
  pad (tolist (map rsi_of_rs rs)) (length closes).

Definition i : Z := (Z.of_nat (length closes) - 1)%Z.

Definition high20 : list pyval :=
  pad (tolist (rolling_max 20 highs)) (length closes).
Definition avg_vol20 : list pyval :=
  pad (tolist (rolling_mean 20 (map inject_Z volumes))) (length closes).

Definition breakout : result bool :=
  if (0 <=? i - 1)%Z then
    c <- py_index closes i ;;
    h <- py_index high20 (i - 1) ;;
    py_gt (Fin c) h
  else Ok false.

Definition pullback : result bool :=
  (s <- py_index sma50 i ;; Ok (is_not_None s))
  &&&
  (c <- py_index closes i ;;
   s <- py_index sma50 i ;;
   py_gt (Fin c) s)
  &&&
  Ok (0 <=? i - 1)%Z
  &&&
  (s <- py_index sma20 (i - 1) ;; Ok (is_not_None s))
  &&&
  (l <- py_index lows (i - 1) ;;
   s <- py_index sma20 (i - 1) ;;
   py_lt (Fin l) s)
  &&&
  (c <- py_index closes i ;;
   c' <- py_index closes (i - 1) ;;
   Ok (Qltb c' c)).

Definition volume_spike : result bool :=
  (a <- py_index avg_vol20 i ;; Ok (is_not_None a))
  &&&
  (v <- py_index volumes i ;;
   a <- py_index avg_vol20 i ;;
   m <- py_mul a (Fin (3 # 2)) ;;
   Ok (fgt (Fin (inject_Z v)) m)).

Definition big_green : result bool :=
  Ok (0 <=? i - 1)%Z
  &&&
  (c <- py_index closes i ;;
   o <- py_index opens i ;;
   Ok (Qltb o c))
  &&&
  (c <- py_index closes i ;;
   h <- py_index highs (i - 1) ;;
   Ok (Qltb h c)).

Definition rsi_strength : result bool :=
  (r <- py_index rsi i ;; Ok (is_not_None r))
  &&&
  (r <- py_index rsi i ;; py_lt (Fin 55) r).

Definition above_sma20 : result bool :=
  (s <- py_index sma20 i ;; Ok (is_not_None s))
  &&&
  (c <- py_index closes i ;;
   s <- py_index sma20 i ;;
   py_gt (Fin c) s).

Definition bullish : result bool :=
  vs <- volume_spike ;;
  bg <- big_green ;;
  rstr <- rsi_strength ;;
  ab <- above_sma20 ;;
  Ok (vs && bg && rstr && ab)%bool.

Definition calculate_technicals : result Technicals :=
  b <- breakout ;;
  p <- pullback ;;
  m <- bullish ;;
  let valid := (b || p || m)%bool in
  let setup_desc :=
    if b then Breakout
    else if p then PullbackBounce
    else if m then BullishMomentum
    else NoSetup in
  Ok {| res_sma20 := sma20; res_sma50 := sma50;
        res_valid := valid; res_setup := setup_desc |}.

End Frame.

End ScanDisabled.

(** ** Price strings

    Strings are sequences of code points below 256.  In that range [\d]
    matches the ten ASCII digits only, and [str.lower] changes the letters
    A-Z and the accented capitals 192-222 (215, the multiplication sign,
    apart). *)

(** [\d] on a code point below 256: the ten ASCII digits.  (Above 255
    [\d] matches other decimal digits as well; the strings of this model
    do not have them.) *)
Definition is_digit (c : ascii) : bool :=
  ((48 <=? nat_of_ascii c)%nat && (nat_of_ascii c <=? 57)%nat)%bool.

Definition is_dot (c : ascii) : bool := (c =? ".")%char.

(** [re.sub(r"[^\d.]", "", s)] *)
Fixpoint re_sub_non_numeric (s : string) : string :=
  match s with
  | EmptyString => EmptyString
  | String c s' =>
      if (is_digit c || is_dot c)%bool
      then String c (re_sub_non_numeric s')
      else re_sub_non_numeric s'
  end.

Definition digit_value (c : ascii) : Z := Z.of_nat (nat_of_ascii c - 48).

(** The digits that [s] starts with: their decimal value on top of [acc],
    their number added to [n], and what follows them. *)
Fixpoint scan_digits (s : string) (acc : Z) (n : nat) : Z * nat * string :=
  match s with
  | EmptyString => (acc, n, s)
  | String c s' =>
      if is_digit c
      then scan_digits s' (10 * acc + digit_value c)%Z (S n)
      else (acc, n, s)
  end.

(** [float(s)] for a string of digits and dots, the only strings that
    [parse_price] converts; [None] stands for [ValueError].  Such a string
    is a number when it has at least one digit and at most one dot.  (On
    other strings [float] accepts more: signs, exponents, blanks; they do
    not reach it here and are mapped to [None].)  The number returned is
    the one that the notation denotes; [float] rounds it to the nearest
    float64, which is the same number for a whole number below 2^53. *)
Definition py_float (s : string) : option Q :=
  let '(ip, ni, rest) := scan_digits s 0 0 in
  match rest with
  | EmptyString => if (ni =? 0)%nat then None else Some (inject_Z ip)
  | String c rest' =>
      if is_dot c then
        let '(fp, nf, rest'') := scan_digits rest' 0 0 in
        match rest'' with
        | EmptyString =>
            if (ni + nf =? 0)%nat then None
            else Some (inject_Z ip
                       + inject_Z fp / inject_Z (10 ^ Z.of_nat nf))
        | String _ _ => None
        end
      else None
  end.

(** [parse_price], the same in both files.  The argument is a table cell:
    [Some s] for a string, [None] for anything else ([None] and [0] are
    falsy, and on any other value [re.sub] raises [TypeError], which the
    function catches). *)
Definition parse_price (price_str : option string) : option Q :=
  match price_str with
  | None => None
  | Some s =>
      if ((s =? "") || (s =? "N/A"))%string%bool then None
      else py_float (re_sub_non_numeric s)
  end.

Definition lower_char (c : ascii) : ascii :=
  let n := nat_of_ascii c in
  if (((65 <=? n) && (n <=? 90))
      || ((192 <=? n) && (n <=? 222) && negb (n =? 215)))%nat%bool
  then ascii_of_nat (n + 32)
  else c.

(** [s.lower()] *)
Fixpoint lower (s : string) : string :=
  match s with
  | EmptyString => EmptyString
  | String c s' => String (lower_char c) (lower s')
  end.

(** [x in (a, b)] for strings *)
Definition str_in (x : string) (l : list string) : bool :=
  existsb (String.eqb x) l.

(** ** The screener *)

(** One row of the screener table.  A cell is [None] when the key is
    missing from the row, or its value is not a string. *)
Record ScreenerRow : Type := mkRow {
  symbol : option string;
  lastsale : option string
}.

Definition exchanges : list string := ["nasdaq"; "nyse"; "amex"]%string.

(** [get_all_screener_data], given the outcome of the request for each
    exchange: its rows, or [None] when the request or the decoding of its
    answer raises. *)
Definition get_all_screener_data
    (fetch_rows : string -> option (list ScreenerRow)) : list ScreenerRow :=
  fold_left (fun all_rows ex =>
               match fetch_rows ex with
               | Some rows => all_rows ++ rows
               | None => all_rows
               end)
            exchanges [].

(** The frame [df[["Symbol", "Price"]].dropna()]: the rows that have a
    symbol and whose last sale parses, with the parsed price. *)
Definition priced_rows (rows : list ScreenerRow) : list (string * Q) :=
  flat_map (fun r =>
              match symbol r, parse_price (lastsale r) with
              | Some s, Some p => [(s, p)]
              | _, _ => []
              end)
           rows.

(** [df[df["Price"] > 0]] *)
Definition positive_rows (l : list (string * Q)) : list (string * Q) :=
  filter (fun r => Qltb 0 (snd r)) l.

(** The [if]/[elif] on the lower-cased filter. *)
Definition filter_rows (f : string) (l : list (string * Q))
    : list (string * Q) :=
  if str_in f ["under_50"; "under50"]%string then
    filter (fun r => Qltb (snd r) 50) l
  else if str_in f ["over_50"; "over50"]%string then
    filter (fun r => negb (Qltb (snd r) 50)) l
  else l.

(** What [sort_values("Price", ascending=False)] guarantees: the same rows,
    by price from high to low.  pandas sorts with an unstable quicksort, so
    the order of rows with equal prices is not determined; the sort is a
    parameter of [get_tickers] below. *)
Definition sorts_by_price_descending
    (sort_values : list (string * Q) -> list (string * Q)) : Prop :=
  forall l,
    Permutation (sort_values l) l /\
    StronglySorted (fun a b => snd b <= snd a) (sort_values l).

(** The rows that [get_tickers] selects, for an already lower-cased filter. *)
Definition select_rows
    (sort_values : list (string * Q) -> list (string * Q))
    (f : string) (limit : nat) (rows : list ScreenerRow)
    : list (string * Q) :=
  firstn limit (sort_values (filter_rows f (positive_rows (priced_rows rows)))).

(** ** The scan loop *)

(** One entry of the response. *)
Record ScanResult : Type := mkScanResult {
  out_symbol : string;
  out_dates : list string;
  out_opens : list Q;
  out_highs : list Q;
  out_lows : list Q;
  out_closes : list Q;
  out_sma20 : list pyval;
  out_sma50 : list pyval;
  out_setup : string
}.

(** The body of the [try] in the loop of [handler], given what
    [yf.download] gave for the symbol ([None] when it raised) and the
    [calculate_technicals] of the file. *)
Definition scan_symbol {date : Type} (strftime : date -> string)
    (calc : DataFrame -> result Technicals)
    (sym : string) (history : option (list (date * Bar)))
    : option ScanResult :=
  match history with
  | None => None
  | Some rows =>
      let df := map snd rows in
      if (length df <? 60)%nat then None
      else match calc df with
           | Raise _ => None
           | Ok tech =>
               if negb (res_valid tech) then None
               else Some {| out_symbol := sym;
                            out_dates := map (fun r => strftime (fst r)) rows;
                            out_opens := map Open df;
                            out_highs := map High df;
                            out_lows := map Low df;
                            out_closes := map Close df;
                            out_sma20 := res_sma20 tech;
                            out_sma50 := res_sma50 tech;
                            out_setup := res_setup tech |}
           end
  end.

(** The loop over the tickers.  [download k sym] is the outcome of the
    [k]-th call of [yf.download], made for [sym].  The loop returns the
    results and the symbols it downloaded, in order. *)
Fixpoint scan_loop {date : Type} (strftime : date -> string)
    (calc : DataFrame -> result Technicals)
    (download : nat -> string -> option (list (date * Bar)))
    (tickers : list string) (results : list ScanResult)
    (calls : list string) : list ScanResult * list string :=
  match tickers with
  | [] => (results, calls)
  | sym :: rest =>
      if (3 <=? length results)%nat then (results, calls)
      else
        let history := download (length calls) sym in
        match scan_symbol strftime calc sym history with
        | Some r =>
            scan_loop strftime calc download rest (results ++ [r])
              (calls ++ [sym])
        | None =>
            scan_loop strftime calc download rest results (calls ++ [sym])
        end
  end.

(** A request, as far as the two handlers look at it.  Three kinds are
    modelled: an object whose [args] attribute is a mapping of strings (a
    Flask request), a plain dictionary with optional ["query"] and ["args"]
    mappings, and a value that has no [args] attribute and is not a
    dictionary.  An object whose [args] attribute is not a mapping ([None],
    say) is outside the model: on it [request.args.get] of src/scan.py
    raises [AttributeError] outside any [try]. *)
Inductive request : Type :=
| FlaskRequest (args : list (string * string))
| EventDict (query args : option (list (string * string)))
| OtherRequest.

(** [d.get(key, default)] *)
Fixpoint dict_get (d : list (string * string)) (key default : string)
    : string :=
  match d with
  | [] => default
  | (k, v) :: d' => if (k =? key)%string then v else dict_get d' key default
  end.

(** The response: the status code and the decoded ["results"] of the body. *)
Record Response : Type := mkResponse {
  statusCode : Z;
  results : list ScanResult
}.

Module ScanPy.

Section Handler.
Context {date : Type}.
Variable strftime : date -> string.
Variable fetch_rows : string -> option (list ScreenerRow).
Variable sort_values : list (string * Q) -> list (string * Q).
Variable download : nat -> string -> option (list (date * Bar)).

(** [price_filter.lower()] raises on [None]; the [except] returns []. *)
Definition get_tickers (price_filter : option string) (limit : nat)
    : list string :=
  match price_filter with
  | None => []
  | Some f =>
      map fst (select_rows sort_values (lower f) limit
                 (get_all_screener_data fetch_rows))
  end.

(** [request.args.get("priceFilter", "all") if hasattr(request, "args")
    else "all"]: a dictionary and a value without [args] have no such
    attribute. *)
Definition price_filter_of (req : request) : string :=
  match req with
  | FlaskRequest args => dict_get args "priceFilter"%string "all"%string
  | EventDict _ _ => "all"%string
  | OtherRequest => "all"%string
  end.

Definition scan (req : request) : list ScanResult * list string :=
  let tickers := get_tickers (Some (price_filter_of req)) 300 in
  scan_loop strftime Scan.calculate_technicals download tickers [] [].

Definition handler (req : request) : Response :=
  {| statusCode := 200; results := fst (scan req) |}.

End Handler.

End ScanPy.

Module ScanDisabledPy.

Section Handler.
Context {date : Type}.
Variable strftime : date -> string.
Variable fetch_rows : string -> option (list ScreenerRow).
Variable sort_values : list (string * Q) -> list (string * Q).
Variable download : nat -> string -> option (list (date * Bar)).

(** [f = price_filter.lower() if price_filter else "all"] *)
Definition get_tickers (price_filter : option string) (limit : nat)
    : list string :=
  let f := match price_filter with
           | None => "all"%string
           | Some s => if (s =? "")%string then "all"%string else lower s
           end in
  map fst (select_rows sort_values f limit
             (get_all_screener_data fetch_rows)).

Definition price_filter_of (req : request) : string :=
  match req with
  | FlaskRequest [] => "all"%string
  | FlaskRequest args => dict_get args "priceFilter"%string "all"%string
  | EventDict query args =>
      let q := match query with
               | Some (e :: q') => e :: q'
               | _ => match args with Some a => a | None => [] end
               end in
      dict_get q "priceFilter"%string "all"%string
  | OtherRequest => "all"%string
  end.

Definition scan (req : request) : list ScanResult * list string :=
  let tickers := get_tickers (Some (price_filter_of req)) 300 in
  scan_loop strftime ScanDisabled.calculate_technicals download tickers [] [].

Definition handler (req : request) : Response :=
  {| statusCode := 200; results := fst (scan req) |}.

End Handler.

End ScanDisabledPy.

(** How many characters of [s] satisfy [p]. *)
Fixpoint count_chars (p : ascii -> bool) (s : string) : nat :=
  match s with
  | EmptyString => 0
  | String c s' => (if p c then 1 else 0) + count_chars p s'
  end.

(** The results that the tickers would give if each one were downloaded,
    in the order of the tickers; [k] is the number of the first call. *)
Fixpoint hits_from {date : Type} (strftime : date -> string)
    (calc : DataFrame -> result Technicals)
    (download : nat -> string -> option (list (date * Bar)))
    (k : nat) (tickers : list string) : list ScanResult :=
  match tickers with
  | [] => []
  | sym :: rest =>
      match scan_symbol strftime calc sym (download k sym) with
      | Some r => r :: hits_from strftime calc download (S k) rest
      | None => hits_from strftime calc download (S k) rest
      end
  end.

(** An insertion sort by price from high to low: one of the sorts that
    [sort_values] may be. *)
Fixpoint insert_by_price (r : string * Q) (l : list (string * Q))
    : list (string * Q) :=
  match l with
  | [] => [r]
  | x :: l' =>
      if Qltb (snd x) (snd r) then r :: l else x :: insert_by_price r l'
  end.

Definition insertion_sort (l : list (string * Q)) : list (string * Q) :=
  fold_right insert_by_price [] l.

(** ** Sample frames *)

Definition flat_bar : Bar :=
  {| Open := 100; High := 101; Low := 100; Close := 100; Volume := 1000 |}.

(** 59 flat bars, then a close of 105 under a high of 106. *)
Definition breakout_frame : DataFrame :=
  repeat flat_bar 59 ++
  [{| Open := 100; High := 106; Low := 100; Close := 105; Volume := 1000 |}].

(** Closes 1, 2, ..., n: every day gains one. *)
Definition rising_frame (n : nat) : DataFrame :=
  map (fun k => let c := inject_Z (Z.of_nat (S k)) in
                {| Open := c; High := c; Low := c; Close := c; Volume := 1000 |})
      (seq 0 n).

(** Closes 10, 11, 10, 11, ...: gains and losses of one alternate. *)
Definition zigzag_frame (n : nat) : DataFrame :=
  map (fun k => let c := inject_Z (10 + Z.of_nat (k mod 2)) in
                {| Open := c; High := c; Low := c; Close := c; Volume := 1000 |})
      (seq 0 n).

(** 19 rising bars, then a green bar above the prior high on double volume. *)
Definition momentum_frame : DataFrame :=
  rising_frame 19 ++
  [{| Open := 19; High := 20; Low := 19; Close := 20; Volume := 2000 |}].


(** 60 identical bars. *)
Definition flat_frame : DataFrame :=
  repeat {| Open := 100; High := 100; Low := 100; Close := 100; Volume := 1000 |} 60.

(** 48 bars at 100, a bar that dips to 90 and closes at 99, then a bar that
    closes at 105: 50 bars in all. *)
Definition pullback_frame : DataFrame :=
  repeat {| Open := 100; High := 100; Low := 100; Close := 100; Volume := 1000 |} 48
  ++ [{| Open := 100; High := 100; Low := 90; Close := 99; Volume := 1000 |};
      {| Open := 99; High := 105; Low := 99; Close := 105; Volume := 1000 |}].

(** A screener in which the request for NYSE fails. *)
Definition sample_fetch (ex : string) : option (list ScreenerRow) :=
  if (ex =? "nasdaq")%string then
    Some [mkRow (Some "AAA") (Some "$120.50"); mkRow (Some "BBB") (Some "N/A");
          mkRow None (Some "$7")]%string
  else if (ex =? "nyse")%string then None
  else Some [mkRow (Some "CCC") (Some "$12.00");
             mkRow (Some "DDD") (Some "$0.00")]%string.

(** Trading days numbered from 0, printed in decimal. *)
Definition sample_strftime (d : nat) : string :=
  DecimalString.NilEmpty.string_of_uint (Nat.to_uint d).

Definition with_dates (df : DataFrame) : list (nat * Bar) :=
  combine (seq 0 (length df)) df.

(** A price history in which every symbol breaks out, except that the
    download of "CCC" fails. *)
Definition sample_download (k : nat) (sym : string)
    : option (list (nat * Bar)) :=
  if (sym =? "CCC")%string then None else Some (with_dates breakout_frame).

(** ** Vocabulary of the specification *)

Fixpoint Qsum (l : list Q) : Q :=
  match l with
  | [] => 0
  | x :: l' => x + Qsum l'
  end.

(** The arithmetic mean of a list of numbers. *)
Definition mean (l : list Q) : Q :=
  Qsum l / inject_Z (Z.of_nat (length l)).


(** The entry at index [k] exists and holds no value. *)
Definition absent_at (l : list pyval) (k : nat) : Prop :=
  exists v, nth_error l k = Some v /\ is_absent v = true.

(** The entry at index [k] holds the number [q]. *)
Definition value_at (l : list pyval) (k : nat) (q : Q) : Prop :=
  exists q', nth_error l k = Some (PyFloat (Fin q')) /\ q' == q.

(** The label that the fixed priority order selects. *)
Definition label_of (breakout pullback momentum : bool) : string :=
  if breakout then Breakout
  else if pullback then PullbackBounce
  else if momentum then BullishMomentum
  else NoSetup.



(** The classifier as the specification words it: on the last bar, over
    columns read as optional numbers, with an absent value failing the
    comparison it takes part in. *)

Definition last_index (df : DataFrame) : nat := pred (length df).

Definition float_at (l : list pyval) (k : nat) : float :=
  match nth k l (PyFloat NaN) with
  | PyFloat x => x
  | PyNone => NaN
  end.

Definition close_at (df : DataFrame) (k : nat) : Q := nth k (Scan.closes df) 0.
Definition open_at (df : DataFrame) (k : nat) : Q := nth k (Scan.opens df) 0.
Definition high_at (df : DataFrame) (k : nat) : Q := nth k (Scan.highs df) 0.
Definition low_at (df : DataFrame) (k : nat) : Q := nth k (Scan.lows df) 0.
Definition volume_at (df : DataFrame) (k : nat) : Z :=
  nth k (Scan.volumes df) 0%Z.

Definition breakout_rule (df : DataFrame) : bool :=
  let i := last_index df in
  ((1 <=? i)%nat
   && fgt (Fin (close_at df i)) (float_at (Scan.high20 df) (i - 1)))%bool.

Definition pullback_rule (df : DataFrame) : bool :=
  let i := last_index df in
  ((1 <=? i)%nat
   && fgt (Fin (close_at df i)) (float_at (Scan.sma50 df) i)
   && flt (Fin (low_at df (i - 1))) (float_at (Scan.sma20 df) (i - 1))
   && Qltb (close_at df (i - 1)) (close_at df i))%bool.

Definition volume_spike_rule (df : DataFrame) : bool :=
  let i := last_index df in
  fgt (Fin (inject_Z (volume_at df i)))
      (fmul (float_at (Scan.avg_vol20 df) i) (Fin (3 # 2))).

Definition big_green_rule (df : DataFrame) : bool :=
  let i := last_index df in
  ((1 <=? i)%nat
   && Qltb (open_at df i) (close_at df i)
   && Qltb (high_at df (i - 1)) (close_at df i))%bool.

Definition rsi_strength_rule (df : DataFrame) : bool :=
  flt (Fin 55) (float_at (Scan.rsi df) (last_index df)).

Definition above_sma20_rule (df : DataFrame) : bool :=
  let i := last_index df in
  fgt (Fin (close_at df i)) (float_at (Scan.sma20 df) i).

Definition momentum_rule (df : DataFrame) : bool :=
  (volume_spike_rule df && big_green_rule df
   && rsi_strength_rule df && above_sma20_rule df)%bool.

(** * Properties *)

(** ** Rationals and comparisons *)

Lemma Qltb_lt (a b : Q) : Qltb a b = true <-> a < b.
Proof.
  unfold Qltb. rewrite Qlt_alt.
  destruct (a ?= b); split; congruence.
Qed.

Lemma Qltb_ge (a b : Q) : Qltb a b = false <-> b <= a.
Proof.
  pose proof (Qltb_lt a b) as H.
  split.
  - intros E. apply Qnot_lt_le. intros L. apply H in L. congruence.
  - intros L. destruct (Qltb a b); [|reflexivity].
    exfalso. apply (Qle_not_lt _ _ L). now apply H.
Qed.

Lemma Qeqb_eq (a b : Q) : Qeqb a b = true <-> a == b.
Proof.
  unfold Qeqb. rewrite Qeq_alt.
  destruct (a ?= b); split; congruence.
Qed.

Lemma Qeqb_neq (a b : Q) : Qeqb a b = false <-> ~ a == b.
Proof.
  rewrite <- Qeqb_eq. destruct (Qeqb a b); split; congruence.
Qed.

Lemma Qsum_nonneg (l : list Q) : Forall (fun x => 0 <= x) l -> 0 <= Qsum l.
Proof.
  induction 1 as [|x l Hx _ IH]; simpl; lra.
Qed.

(** ** Slices *)

Lemma slice_length (xs : list Q) (lo hi : nat) :
  (hi <= length xs)%nat -> length (slice xs lo hi) = (hi - lo)%nat.
Proof.
  intros H. unfold slice. rewrite length_firstn, length_skipn. lia.
Qed.

Lemma slice_uncons (xs : list Q) : forall lo hi,
  (lo < hi)%nat -> (lo < length xs)%nat ->
  slice xs lo hi = nth lo xs 0 :: slice xs (S lo) hi.
Proof.
  unfold slice.
  induction xs as [|a xs IH]; intros lo hi Hlt Hlen; simpl in Hlen; [lia|].
  destruct lo as [|lo].
  - destruct hi as [|hi]; [lia|]. simpl. now rewrite Nat.sub_0_r.
  - destruct hi as [|hi]; [lia|].
    change (skipn (S lo) (a :: xs)) with (skipn lo xs).
    change (skipn (S (S lo)) (a :: xs)) with (skipn (S lo) xs).
    change (nth (S lo) (a :: xs) 0) with (nth lo xs 0).
    change (S hi - S lo)%nat with (hi - lo)%nat.
    change (S hi - S (S lo))%nat with (hi - S lo)%nat.
    apply IH; lia.
Qed.

Lemma Qsum_slice_snoc (xs : list Q) : forall lo k,
  (lo <= k)%nat -> (k < length xs)%nat ->
  Qsum (slice xs lo (S k)) == Qsum (slice xs lo k) + nth k xs 0.
Proof.
  unfold slice.
  induction xs as [|a xs IH]; intros lo k Hle Hlen; simpl in Hlen; [lia|].
  destruct lo as [|lo].
  - destruct k as [|k]; simpl.
    + ring.
    + specialize (IH 0%nat k). simpl in IH. rewrite !Nat.sub_0_r in IH.
      rewrite IH by lia. ring.
  - destruct k as [|k]; [lia|].
    change (skipn (S lo) (a :: xs)) with (skipn lo xs).
    change (nth (S k) (a :: xs) 0) with (nth k xs 0).
    replace (S (S k) - S lo)%nat with (S k - lo)%nat by lia.
    replace (S k - S lo)%nat with (k - lo)%nat by lia.
    apply IH; lia.
Qed.

Lemma skipn_cons_nth (xs : list Q) : forall k x rest,
  skipn k xs = x :: rest ->
  nth k xs 0 = x /\ skipn (S k) xs = rest /\ (k < length xs)%nat.
Proof.
  induction xs as [|a xs IH]; intros k x rest H.
  - destruct k; discriminate.
  - destruct k as [|k].
    + simpl in H. injection H as -> ->. simpl. repeat split; lia.
    + simpl in H. destruct (IH _ _ _ H) as (H1 & H2 & H3).
      simpl. repeat split; auto; lia.
Qed.

(** ** The rolling mean

    The one-pass computation keeps, before it handles index [k], the number
    of values in the window and their sum. *)

Section RollingMean.
Variables (w minp : nat) (xs : list Q).
Hypothesis w_pos : (0 < w)%nat.

Lemma roll_mean_step (k : nat) (st : nat * Q) (x : Q) :
  (k < length xs)%nat ->
  nth k xs 0 = x ->
  fst st = Nat.min k w ->
  snd st == Qsum (slice xs (k - w) k) ->
  let st' := add_mean x (if (w <=? k)%nat
                         then remove_mean (nth (k - w) xs 0) st else st) in
  fst st' = Nat.min (S k) w /\
  snd st' == Qsum (slice xs (S k - w) (S k)).
Proof.
  intros Hk Hx Hn Hs.
  destruct (Nat.leb_spec w k) as [Hle|Hgt];
    unfold add_mean, remove_mean; cbn [fst snd].
  - split; [lia|].
    rewrite Qsum_slice_snoc by lia.
    rewrite Hs, Hx.
    rewrite (slice_uncons xs (k - w) k) by lia. cbn [Qsum].
    replace (S k - w)%nat with (S (k - w)) by lia. ring.
  - split; [lia|].
    replace (S k - w)%nat with 0%nat by lia.
    replace (k - w)%nat with 0%nat in Hs by lia.
    rewrite Qsum_slice_snoc by lia. rewrite Hs, Hx. reflexivity.
Qed.

Lemma roll_mean_loop_lookup : forall todo k st j,
  todo = skipn k xs ->
  fst st = Nat.min k w ->
  snd st == Qsum (slice xs (k - w) k) ->
  (j < length todo)%nat ->
  exists s,
    s == Qsum (slice xs (S (k + j) - w) (S (k + j))) /\
    nth_error (roll_mean_loop w minp xs todo k st) j
    = Some (calc_mean minp (Nat.min (S (k + j)) w, s)).
Proof.
  induction todo as [|x rest IH]; intros k st j Htodo Hn Hs Hj;
    simpl in Hj; [lia|].
  symmetry in Htodo. apply skipn_cons_nth in Htodo.
  destruct Htodo as (Hx & Hrest & Hk).
  destruct (roll_mean_step k st x Hk Hx Hn Hs) as [Hn' Hs'].
  cbv zeta in Hn', Hs'.
  destruct j as [|j].
  - exists (snd (add_mean x (if (w <=? k)%nat
                             then remove_mean (nth (k - w) xs 0) st else st))).
    rewrite Nat.add_0_r. split; [exact Hs'|].
    simpl nth_error. rewrite <- Hn', <- surjective_pairing. reflexivity.
  - replace (k + S j)%nat with (S k + j)%nat by lia.
    simpl nth_error. apply IH; auto. lia.
Qed.

Lemma length_roll_mean_loop : forall todo k st,
  length (roll_mean_loop w minp xs todo k st) = length todo.
Proof.
  induction todo as [|x rest IH]; intros; simpl; [reflexivity|].
  now rewrite IH.
Qed.

End RollingMean.

Lemma length_rolling_mean (w : nat) (xs : list Q) :
  length (rolling_mean w xs) = length xs.
Proof. apply length_roll_mean_loop. Qed.

(** Entry [k] of a rolling mean of window [w]: NaN for the first [w - 1]
    entries, then the sum of the [w] values that end at [k], over [w]. *)
Lemma rolling_mean_lookup (w : nat) (xs : list Q) (k : nat) :
  (0 < w)%nat -> (k < length xs)%nat ->
  exists s,
    s == Qsum (slice xs (S k - w) (S k)) /\
    nth_error (rolling_mean w xs) k
    = Some (if (S k <? w)%nat then NaN
            else Fin (s / inject_Z (Z.of_nat w))).
Proof.
  intros Hw Hk.
  destruct (roll_mean_loop_lookup w w xs Hw xs 0%nat (0%nat, 0) k)
    as (s & Hs & Hnth); simpl; try reflexivity; try lia.
  change (0 + k)%nat with k in Hs.
  exists s. split; [exact Hs|].
  unfold rolling_mean. rewrite Hnth. f_equal.
  change (0 + k)%nat with k. unfold calc_mean. cbn [fst snd].
  destruct (Nat.ltb_spec (S k) w) as [Hlt|Hge].
  - replace (w <=? Nat.min (S k) w)%nat with false; [reflexivity|].
    symmetry. apply Nat.leb_gt. lia.
  - replace (Nat.min (S k) w) with w by lia.
    rewrite Nat.leb_refl. replace (0 <? w)%nat with true; [reflexivity|].
    symmetry. apply Nat.ltb_lt. lia.
Qed.

Lemma rolling_mean_warmup (w : nat) (xs : list Q) (k : nat) :
  (0 < w)%nat -> (k < length xs)%nat -> (S k < w)%nat ->
  nth_error (rolling_mean w xs) k = Some NaN.
Proof.
  intros Hw Hk Hlt.
  destruct (rolling_mean_lookup w xs k Hw Hk) as (s & _ & H).
  rewrite H. apply Nat.ltb_lt in Hlt. now rewrite Hlt.
Qed.

Lemma rolling_mean_full (w : nat) (xs : list Q) (k : nat) :
  (0 < w)%nat -> (k < length xs)%nat -> (w <= S k)%nat ->
  exists q,
    nth_error (rolling_mean w xs) k = Some (Fin q) /\
    q == mean (slice xs (S k - w) (S k)) /\
    q * inject_Z (Z.of_nat w) == Qsum (slice xs (S k - w) (S k)).
Proof.
  intros Hw Hk Hge.
  destruct (rolling_mean_lookup w xs k Hw Hk) as (s & Hs & H).
  exists (s / inject_Z (Z.of_nat w)).
  assert (Hnz : ~ inject_Z (Z.of_nat w) == 0).
  { unfold Qeq, inject_Z. simpl. lia. }
  split; [|split].
  - rewrite H. replace (S k <? w)%nat with false; [reflexivity|].
    symmetry. apply Nat.ltb_ge. lia.
  - unfold mean. rewrite slice_length by lia.
    replace (S k - (S k - w))%nat with w by lia. now rewrite Hs.
  - rewrite <- Hs. field. exact Hnz.
Qed.

(** ** Lists, padding and indexing *)

Lemma length_rolling_max (w : nat) (xs : list Q) :
  length (rolling_max w xs) = length xs.
Proof. unfold rolling_max. now rewrite length_map, length_seq. Qed.

Lemma rolling_max_lookup (w : nat) (xs : list Q) (k : nat) :
  (k < length xs)%nat ->
  nth_error (rolling_max w xs) k
  = Some (if (S k <? w)%nat then NaN
          else match slice xs (S k - w) (S k) with
               | [] => NaN
               | x :: l => Fin (Qmax_list x l)
               end).
Proof.
  intros Hk. unfold rolling_max.
  rewrite nth_error_map, nth_error_seq.
  apply Nat.ltb_lt in Hk. rewrite Hk. reflexivity.
Qed.

Lemma length_np_diff (a : list Q) : length (np_diff a) = pred (length a).
Proof.
  induction a as [|x [|y t] IH]; try reflexivity.
  change (np_diff (x :: y :: t)) with ((y - x) :: np_diff (y :: t)).
  simpl length in *. now rewrite IH.
Qed.

Lemma length_series_div : forall a b,
  length a = length b -> length (series_div a b) = length a.
Proof.
  induction a as [|x a IH]; intros [|y b] H; simpl in *; try congruence.
  now rewrite IH by congruence.
Qed.

Lemma series_div_lookup : forall a b k x y,
  nth_error a k = Some x -> nth_error b k = Some y ->
  nth_error (series_div a b) k = Some (fdiv x y).
Proof.
  induction a as [|x0 a IH]; intros [|y0 b] [|k] x y Ha Hb;
    simpl in *; try congruence.
  now apply IH.
Qed.

Lemma pad_same (arr : list pyval) (n : nat) :
  length arr = n -> pad arr n = arr.
Proof.
  intros <-. unfold pad. now rewrite Z.sub_diag.
Qed.

Lemma pad_one (arr : list pyval) (n : nat) :
  n = S (length arr) -> pad arr n = PyNone :: arr.
Proof.
  intros ->. unfold pad.
  replace (Z.of_nat (S (length arr)) - Z.of_nat (length arr))%Z with 1%Z by lia.
  reflexivity.
Qed.

Lemma nth_tolist (k : nat) (s : list float) :
  nth k (tolist s) (PyFloat NaN) = PyFloat (nth k s NaN).
Proof. unfold tolist. apply map_nth. Qed.

Lemma tolist_lookup (k : nat) (s : list float) :
  nth_error (tolist s) k = option_map PyFloat (nth_error s k).
Proof. unfold tolist. apply nth_error_map. Qed.

Lemma py_index_nat {A : Type} (l : list A) (k : nat) (d : A) :
  (k < length l)%nat -> py_index l (Z.of_nat k) = Ok (nth k l d).
Proof.
  intros Hk. unfold py_index.
  replace (Z.of_nat k <? 0)%Z with false by (symmetry; apply Z.ltb_ge; lia).
  replace (0 <=? Z.of_nat k)%Z with true by (symmetry; apply Z.leb_le; lia).
  replace (Z.of_nat k <? Z.of_nat (length l))%Z with true
    by (symmetry; apply Z.ltb_lt; lia).
  rewrite Nat2Z.id. cbn [andb].
  now rewrite (nth_error_nth' l d Hk).
Qed.

Lemma py_index_nil {A : Type} (k : Z) : py_index (@nil A) k = Raise IndexError.
Proof.
  unfold py_index. cbn [length]. change (Z.of_nat 0) with 0%Z.
  destruct (k <? 0)%Z eqn:E.
  - destruct (Z.leb_spec 0 (k + 0)) as [H|H]; [|reflexivity].
    apply Z.ltb_lt in E. lia.
  - destruct (0 <=? k)%Z; [|reflexivity]. now rewrite E.
Qed.

Lemma and_then_Ok (a b : bool) : Ok a &&& Ok b = Ok (a && b)%bool.
Proof. now destruct a. Qed.

(** ** The indicator columns of a frame *)

Section Columns.
Variable df : DataFrame.

Lemma length_closes : length (Scan.closes df) = length df.
Proof. apply length_map. Qed.

Lemma length_highs : length (Scan.highs df) = length df.
Proof. apply length_map. Qed.

Lemma length_lows : length (Scan.lows df) = length df.
Proof. apply length_map. Qed.

Lemma length_opens : length (Scan.opens df) = length df.
Proof. apply length_map. Qed.

Lemma length_volumes : length (Scan.volumes df) = length df.
Proof. apply length_map. Qed.

Lemma sma20_unpadded :
  Scan.sma20 df = tolist (rolling_mean 20 (Scan.closes df)).
Proof.
  apply pad_same. unfold tolist. now rewrite length_map, length_rolling_mean.
Qed.

Lemma sma50_unpadded :
  Scan.sma50 df = tolist (rolling_mean 50 (Scan.closes df)).
Proof.
  apply pad_same. unfold tolist. now rewrite length_map, length_rolling_mean.
Qed.

Lemma high20_unpadded :
  Scan.high20 df = tolist (rolling_max 20 (Scan.highs df)).
Proof.
  apply pad_same. unfold tolist.
  now rewrite length_map, length_rolling_max, length_highs, length_closes.
Qed.

Lemma avg_vol20_unpadded :
  Scan.avg_vol20 df
  = tolist (rolling_mean 20 (map inject_Z (Scan.volumes df))).
Proof.
  apply pad_same. unfold tolist.
  now rewrite length_map, length_rolling_mean, length_map,
    length_volumes, length_closes.
Qed.

Lemma length_up : length (Scan.up df) = pred (length df).
Proof.
  unfold Scan.up, where_pos, Scan.delta.
  now rewrite length_map, length_np_diff, length_closes.
Qed.

Lemma length_down : length (Scan.down df) = pred (length df).
Proof.
  unfold Scan.down, where_neg, Scan.delta.
  now rewrite length_map, length_np_diff, length_closes.
Qed.

Lemma length_rs : length (Scan.rs df) = pred (length df).
Proof.
  unfold Scan.rs, Scan.roll_up, Scan.roll_down.
  rewrite length_series_div; rewrite !length_rolling_mean.
  - apply length_up.
  - now rewrite length_up, length_down.
Qed.

(** The one [None] that [pad] ever inserts: the RSI column is one entry
    short, because it is computed from day-over-day differences. *)
Lemma rsi_padded :
  df <> [] ->
  Scan.rsi df = PyNone :: tolist (map rsi_of_rs (Scan.rs df)).
Proof.
  intros Hne. apply pad_one. unfold tolist.
  rewrite !length_map, length_rs, length_closes.
  destruct df; [congruence|reflexivity].
Qed.

Lemma rsi_empty : df = [] -> Scan.rsi df = [].
Proof. intros E. rewrite E. reflexivity. Qed.

Lemma length_sma20 : length (Scan.sma20 df) = length df.
Proof.
  rewrite sma20_unpadded. unfold tolist.
  now rewrite length_map, length_rolling_mean, length_closes.
Qed.

Lemma length_sma50 : length (Scan.sma50 df) = length df.
Proof.
  rewrite sma50_unpadded. unfold tolist.
  now rewrite length_map, length_rolling_mean, length_closes.
Qed.

Lemma length_high20 : length (Scan.high20 df) = length df.
Proof.
  rewrite high20_unpadded. unfold tolist.
  now rewrite length_map, length_rolling_max, length_highs.
Qed.

Lemma length_avg_vol20 : length (Scan.avg_vol20 df) = length df.
Proof.
  rewrite avg_vol20_unpadded. unfold tolist.
  now rewrite length_map, length_rolling_mean, length_map, length_volumes.
Qed.

Lemma length_rsi : length (Scan.rsi df) = length df.
Proof.
  destruct (Nat.eq_dec (length df) 0) as [Hz|Hnz].
  - apply length_zero_iff_nil in Hz. rewrite rsi_empty by exact Hz.
    now rewrite Hz.
  - rewrite rsi_padded by (intros E; now rewrite E in Hnz).
    unfold tolist. rewrite length_cons, !length_map, length_rs. lia.
Qed.

End Columns.

Create Rewrite HintDb columns.
#[local] Hint Rewrite length_closes length_highs length_lows length_opens
  length_volumes length_sma20 length_sma50 length_high20 length_avg_vol20
  length_rsi : columns.

Ltac in_range := autorewrite with columns; lia.

(** ** The classifier of src/scan.py against the rules

    On a frame with at least one bar no index is out of range and no
    comparison meets [None]: every predicate returns, and returns what the
    rule says. *)

Lemma float_at_tolist (s : list float) (k : nat) :
  float_at (tolist s) k = nth k s NaN.
Proof. unfold float_at. now rewrite nth_tolist. Qed.

Section LastBar.
Variables (df : DataFrame) (m : nat).
Hypothesis Hlen : length df = S (S m).

Lemma last_i : Scan.i df = Z.of_nat (S m).
Proof. unfold Scan.i. rewrite length_closes, Hlen. lia. Qed.

Lemma prev_i : (Scan.i df - 1)%Z = Z.of_nat m.
Proof. rewrite last_i. lia. Qed.

Lemma prev_i_nonneg : (0 <=? Z.of_nat m)%Z = true.
Proof. apply Z.leb_le. lia. Qed.

Lemma last_index_S : last_index df = S m.
Proof. unfold last_index. now rewrite Hlen. Qed.

Ltac at_last_bar :=
  rewrite ?prev_i, ?last_i, ?prev_i_nonneg;
  rewrite ?(py_index_nat _ _ 0) by in_range;
  rewrite ?(py_index_nat _ _ 0%Z) by in_range;
  rewrite ?(py_index_nat _ _ (PyFloat NaN)) by in_range;
  cbn [bind];
  rewrite ?sma20_unpadded, ?sma50_unpadded, ?high20_unpadded,
    ?avg_vol20_unpadded, ?nth_tolist, ?float_at_tolist;
  cbn [bind is_not_None py_gt py_lt py_mul as_float];
  rewrite ?and_then_Ok.

Lemma breakout_last : Scan.breakout df = Ok (breakout_rule df).
Proof.
  unfold Scan.breakout, breakout_rule, close_at.
  rewrite last_index_S. at_last_bar.
  replace (S m - 1)%nat with m by lia. reflexivity.
Qed.

Lemma pullback_bounce_last :
  Scan.pullback_bounce df = Ok (pullback_rule df).
Proof.
  unfold Scan.pullback_bounce, pullback_rule, close_at, low_at.
  rewrite last_index_S. at_last_bar.
  replace (S m - 1)%nat with m by lia. reflexivity.
Qed.

Lemma volume_spike_last :
  Scan.volume_spike df = Ok (volume_spike_rule df).
Proof.
  unfold Scan.volume_spike, volume_spike_rule, volume_at.
  rewrite last_index_S. at_last_bar. reflexivity.
Qed.

Lemma big_green_last : Scan.big_green df = Ok (big_green_rule df).
Proof.
  unfold Scan.big_green, big_green_rule, close_at, open_at, high_at.
  rewrite last_index_S. at_last_bar.
  replace (S m - 1)%nat with m by lia. reflexivity.
Qed.

Lemma rsi_strength_last :
  Scan.rsi_strength df = Ok (rsi_strength_rule df).
Proof.
  assert (Hne : df <> []) by (intros E; now rewrite E in Hlen).
  unfold Scan.rsi_strength, rsi_strength_rule.
  rewrite last_index_S. at_last_bar.
  unfold float_at. rewrite (rsi_padded df Hne).
  cbn [nth]. rewrite nth_tolist.
  cbn [bind is_not_None py_lt as_float]. now rewrite and_then_Ok.
Qed.

Lemma above_sma20_last :
  Scan.above_sma20 df = Ok (above_sma20_rule df).
Proof.
  unfold Scan.above_sma20, above_sma20_rule, close_at.
  rewrite last_index_S. at_last_bar. reflexivity.
Qed.

End LastBar.

Lemma frame_cases (df : DataFrame) :
  df = [] \/ (exists b, df = [b]) \/ (exists m, length df = S (S m)).
Proof.
  destruct df as [|b [|b' t]]; eauto.
  right. right. exists (length t). reflexivity.
Qed.

Ltac by_frame_cases df tac :=
  destruct (frame_cases df) as [E | [[b E] | [m E]]];
  [ congruence | rewrite E; reflexivity | now apply tac with m ].

Lemma breakout_refines (df : DataFrame) :
  Scan.breakout df = Ok (breakout_rule df).
Proof.
  destruct (frame_cases df) as [E | [[b E] | [m E]]].
  - rewrite E. reflexivity.
  - rewrite E. reflexivity.
  - now apply breakout_last with m.
Qed.

Lemma pullback_bounce_refines (df : DataFrame) :
  df <> [] -> Scan.pullback_bounce df = Ok (pullback_rule df).
Proof. intros Hne. by_frame_cases df pullback_bounce_last. Qed.

Lemma volume_spike_refines (df : DataFrame) :
  df <> [] -> Scan.volume_spike df = Ok (volume_spike_rule df).
Proof. intros Hne. by_frame_cases df volume_spike_last. Qed.

Lemma big_green_refines (df : DataFrame) :
  df <> [] -> Scan.big_green df = Ok (big_green_rule df).
Proof. intros Hne. by_frame_cases df big_green_last. Qed.

Lemma rsi_strength_refines (df : DataFrame) :
  df <> [] -> Scan.rsi_strength df = Ok (rsi_strength_rule df).
Proof. intros Hne. by_frame_cases df rsi_strength_last. Qed.

Lemma above_sma20_refines (df : DataFrame) :
  df <> [] -> Scan.above_sma20 df = Ok (above_sma20_rule df).
Proof. intros Hne. by_frame_cases df above_sma20_last. Qed.

Lemma bullish_momentum_refines (df : DataFrame) :
  df <> [] -> Scan.bullish_momentum df = Ok (momentum_rule df).
Proof.
  intros Hne. unfold Scan.bullish_momentum.
  rewrite volume_spike_refines, big_green_refines, rsi_strength_refines,
    above_sma20_refines by exact Hne.
  reflexivity.
Qed.

Lemma calculate_technicals_refines (df : DataFrame) :
  df <> [] ->
  Scan.calculate_technicals df
  = Ok {| res_sma20 := Scan.sma20 df;
          res_sma50 := Scan.sma50 df;
          res_valid := (breakout_rule df || pullback_rule df
                        || momentum_rule df)%bool;
          res_setup := label_of (breakout_rule df) (pullback_rule df)
                         (momentum_rule df) |}.
Proof.
  intros Hne. unfold Scan.calculate_technicals.
  rewrite breakout_refines, pullback_bounce_refines,
    bullish_momentum_refines by exact Hne.
  reflexivity.
Qed.

Lemma calculate_technicals_nil :
  Scan.calculate_technicals [] = Raise IndexError.
Proof. reflexivity. Qed.

Lemma label_of_NoSetup (b p m : bool) :
  label_of b p m = NoSetup <-> (b || p || m)%bool = false.
Proof.
  destruct b, p, m; cbn; split; intros H; try reflexivity; discriminate.
Qed.

(** ** Absence windows *)

Lemma absent_at_tolist (s : list float) (k : nat) :
  absent_at (tolist s) k <-> nth_error s k = Some NaN.
Proof.
  unfold absent_at. rewrite tolist_lookup. split.
  - intros (v & Hv & Ha). destruct (nth_error s k) as [x|]; [|discriminate].
    injection Hv as <-. destruct x; try discriminate. reflexivity.
  - intros ->. exists (PyFloat NaN). split; reflexivity.
Qed.

Lemma rolling_mean_absent (w : nat) (xs : list Q) (k : nat) :
  (0 < w)%nat -> (k < length xs)%nat ->
  (absent_at (tolist (rolling_mean w xs)) k <-> (S k < w)%nat).
Proof.
  intros Hw Hk. rewrite absent_at_tolist. split.
  - intros H. destruct (Nat.lt_ge_cases (S k) w) as [Hlt|Hge]; [exact Hlt|].
    destruct (rolling_mean_full w xs k Hw Hk Hge) as (q & Hq & _).
    congruence.
  - now apply rolling_mean_warmup.
Qed.

Lemma slice_nonempty (xs : list Q) (lo hi : nat) :
  (lo < hi)%nat -> (hi <= length xs)%nat -> slice xs lo hi <> [].
Proof.
  intros Hlt Hle E. apply (f_equal (@length Q)) in E.
  rewrite slice_length in E by exact Hle. simpl in E. lia.
Qed.

Lemma rolling_max_cases (w : nat) (xs : list Q) (k : nat) :
  (0 < w)%nat -> (k < length xs)%nat ->
  ((S k < w)%nat /\ nth_error (rolling_max w xs) k = Some NaN) \/
  ((w <= S k)%nat /\ exists x l,
      slice xs (S k - w) (S k) = x :: l /\
      nth_error (rolling_max w xs) k = Some (Fin (Qmax_list x l))).
Proof.
  intros Hw Hk. rewrite rolling_max_lookup by exact Hk.
  destruct (Nat.ltb_spec (S k) w) as [Hlt|Hge]; [left; auto|right].
  split; [exact Hge|].
  destruct (slice xs (S k - w) (S k)) as [|x l] eqn:E.
  - exfalso. revert E. apply slice_nonempty; lia.
  - exists x, l. split; reflexivity.
Qed.

Lemma rolling_max_absent (w : nat) (xs : list Q) (k : nat) :
  (0 < w)%nat -> (k < length xs)%nat ->
  (absent_at (tolist (rolling_max w xs)) k <-> (S k < w)%nat).
Proof.
  intros Hw Hk. rewrite absent_at_tolist.
  destruct (rolling_max_cases w xs k Hw Hk)
    as [[Hlt H] | [Hge (x & l & _ & H)]]; rewrite H; split; intros; auto.
  - discriminate.
  - lia.
Qed.

Lemma float_at_absent (l : list pyval) (k : nat) :
  absent_at l k -> float_at l k = NaN.
Proof.
  intros (v & Hv & Ha). unfold float_at.
  rewrite (nth_error_nth _ _ _ Hv).
  destruct v as [|[]]; try discriminate; reflexivity.
Qed.

Lemma float_at_lookup (l : list pyval) (k : nat) (x : float) :
  nth_error l k = Some (PyFloat x) -> float_at l k = x.
Proof. intros H. unfold float_at. now rewrite (nth_error_nth _ _ _ H). Qed.

Lemma fgt_NaN (x : float) : fgt x NaN = false.
Proof. now destruct x. Qed.

Lemma flt_NaN (x : float) : flt x NaN = false.
Proof. now destruct x. Qed.

Lemma fmul_NaN (x : float) : fmul NaN x = NaN.
Proof. now destruct x. Qed.

(** ** The rolling high is the maximum of its window *)

Lemma Qmax_list_ge_first : forall (l : list Q) (x : Q), x <= Qmax_list x l.
Proof.
  induction l as [|y l IH]; intros x; simpl; [lra|].
  destruct (Qltb x y) eqn:E.
  - apply Qltb_lt in E. specialize (IH y). lra.
  - apply IH.
Qed.

Lemma Qmax_list_ge : forall (l : list Q) (x y : Q),
  In y l -> y <= Qmax_list x l.
Proof.
  induction l as [|z l IH]; intros x y Hin; simpl in *; [contradiction|].
  destruct Hin as [->|Hin]; [|now apply IH].
  destruct (Qltb x y) eqn:E.
  - apply Qmax_list_ge_first.
  - apply Qltb_ge in E. pose proof (Qmax_list_ge_first l x). lra.
Qed.

Lemma Qmax_list_In : forall (l : list Q) (x : Q), In (Qmax_list x l) (x :: l).
Proof.
  induction l as [|y l IH]; intros x; simpl; [auto|].
  destruct (IH (if Qltb x y then y else x)) as [H|H]; [|auto].
  destruct (Qltb x y); rewrite <- H; auto.
Qed.

Lemma In_slice (xs : list Q) (lo hi : nat) (y : Q) :
  (hi <= length xs)%nat ->
  (In y (slice xs lo hi) <->
   exists j, (lo <= j < hi)%nat /\ nth j xs 0 = y).
Proof.
  intros Hhi. unfold slice. split.
  - intros Hin. apply In_nth_error in Hin. destruct Hin as [n Hn].
    rewrite nth_error_firstn in Hn.
    destruct (Nat.ltb_spec n (hi - lo)) as [Hlt|]; [|discriminate].
    rewrite nth_error_skipn in Hn.
    exists (lo + n)%nat. split; [lia|]. now apply nth_error_nth.
  - intros (j & Hj & <-).
    apply nth_error_In with (n := (j - lo)%nat).
    rewrite nth_error_firstn.
    replace (j - lo <? hi - lo)%nat with true
      by (symmetry; apply Nat.ltb_lt; lia).
    rewrite nth_error_skipn. replace (lo + (j - lo))%nat with j by lia.
    apply nth_error_nth'. lia.
Qed.

Lemma high20_window_max (df : DataFrame) (k : nat) :
  (k < length df)%nat -> (19 <= k)%nat ->
  exists h,
    nth_error (Scan.high20 df) k = Some (PyFloat (Fin h)) /\
    (forall j, (k - 19 <= j <= k)%nat -> high_at df j <= h) /\
    (exists j, (k - 19 <= j <= k)%nat /\ high_at df j = h).
Proof.
  intros Hk Hge.
  assert (Hlen : (k < length (Scan.highs df))%nat) by in_range.
  destruct (rolling_max_cases 20 (Scan.highs df) k ltac:(lia) Hlen)
    as [[Hlt _] | [_ (x & l & Hs & E)]]; [lia|].
  exists (Qmax_list x l). rewrite high20_unpadded, tolist_lookup, E.
  split; [reflexivity|].
  replace (S k - 20)%nat with (k - 19)%nat in Hs by lia.
  assert (Hmem : forall y, In y (x :: l) <->
            exists j, (k - 19 <= j < S k)%nat /\ high_at df j = y).
  { intros y. rewrite <- Hs. apply In_slice. lia. }
  split.
  - intros j Hj.
    assert (Hin : In (high_at df j) (x :: l))
      by (apply Hmem; exists j; split; [lia|reflexivity]).
    destruct Hin as [<-|Hin];
      [apply Qmax_list_ge_first|now apply Qmax_list_ge].
  - destruct (proj1 (Hmem _) (Qmax_list_In l x)) as (j & Hj & E').
    exists j. split; [lia|exact E'].
Qed.





(** ** The two files *)

Section TwoFiles.
Variable df : DataFrame.

Ltac split_on_reads :=
  repeat match goal with
    | |- context [py_index ?l ?k] =>
        let r := fresh "r" in
        destruct (py_index l k) as [r|] eqn:?; cbn [bind and_then];
        try reflexivity
    | |- context [as_float ?v] =>
        destruct v; cbn [bind and_then as_float is_not_None];
        try reflexivity
    | |- context [if ?c then _ else _] =>
        destruct c; cbn [bind and_then];
        try reflexivity
    end.

Lemma breakout_agree : ScanDisabled.breakout df = Scan.breakout df.
Proof. reflexivity. Qed.

Lemma pullback_agree : ScanDisabled.pullback df = Scan.pullback_bounce df.
Proof.
  unfold ScanDisabled.pullback, Scan.pullback_bounce.
  change (ScanDisabled.i df) with (Scan.i df).
  change (ScanDisabled.sma50 df) with (Scan.sma50 df).
  change (ScanDisabled.sma20 df) with (Scan.sma20 df).
  change (ScanDisabled.closes df) with (Scan.closes df).
  change (ScanDisabled.lows df) with (Scan.lows df).
  unfold and_then, py_gt, py_lt. cbn [bind].
  split_on_reads.
Qed.

Lemma volume_spike_agree :
  ScanDisabled.volume_spike df = Scan.volume_spike df.
Proof.
  unfold ScanDisabled.volume_spike, Scan.volume_spike.
  change (ScanDisabled.i df) with (Scan.i df).
  change (ScanDisabled.avg_vol20 df) with (Scan.avg_vol20 df).
  change (ScanDisabled.volumes df) with (Scan.volumes df).
  unfold and_then, py_mul. cbn [bind].
  split_on_reads.
Qed.

Lemma big_green_agree : ScanDisabled.big_green df = Scan.big_green df.
Proof.
  unfold ScanDisabled.big_green, Scan.big_green.
  change (ScanDisabled.i df) with (Scan.i df).
  change (ScanDisabled.closes df) with (Scan.closes df).
  change (ScanDisabled.opens df) with (Scan.opens df).
  change (ScanDisabled.highs df) with (Scan.highs df).
  unfold and_then. cbn [bind].
  split_on_reads.
Qed.

Lemma bullish_agree : ScanDisabled.bullish df = Scan.bullish_momentum df.
Proof.
  unfold ScanDisabled.bullish, Scan.bullish_momentum.
  rewrite volume_spike_agree, big_green_agree. reflexivity.
Qed.

Lemma calculate_technicals_agree :
  ScanDisabled.calculate_technicals df = Scan.calculate_technicals df.
Proof.
  unfold ScanDisabled.calculate_technicals, Scan.calculate_technicals.
  rewrite breakout_agree, pullback_agree, bullish_agree. reflexivity.
Qed.

End TwoFiles.

(** ** The classifier *)

(** C2: for every frame on which the engine returns, the label is chosen by
    the fixed priority over the three predicates evaluated on the last bar
    (breakout, then pullback and bounce, then bullish momentum, else no
    setup), [valid] is true exactly when the label is not the no-setup one,
    and when breakout and pullback both hold the label is the breakout one,
    not the pullback one. *)
Theorem label_priority (df : DataFrame) :
  df <> [] ->
  exists r b p m,
    Scan.calculate_technicals df = Ok r /\
    Scan.breakout df = Ok b /\
    Scan.pullback_bounce df = Ok p /\
    Scan.bullish_momentum df = Ok m /\
    res_setup r = (if b then Breakout
                   else if p then PullbackBounce
                   else if m then BullishMomentum
                   else NoSetup) /\
    (res_valid r = true <-> res_setup r <> NoSetup) /\
    (b = true -> p = true ->
     res_setup r = Breakout /\ res_setup r <> PullbackBounce).
Proof.
  intros Hne.
  eexists _, (breakout_rule df), (pullback_rule df), (momentum_rule df).
  split; [apply calculate_technicals_refines; exact Hne|].
  split; [apply breakout_refines|].
  split; [apply pullback_bounce_refines; exact Hne|].
  split; [apply bullish_momentum_refines; exact Hne|].
  cbn [res_setup res_valid]. split; [reflexivity|]. split.
  - rewrite label_of_NoSetup.
    destruct (breakout_rule df || pullback_rule df || momentum_rule df)%bool;
      split; congruence.
  - intros -> ->. cbn. split; [reflexivity|discriminate].
Qed.

Lemma label_priority_witness :
  exists r b p m,
    Scan.calculate_technicals breakout_frame = Ok r /\
    Scan.breakout breakout_frame = Ok b /\
    Scan.pullback_bounce breakout_frame = Ok p /\
    Scan.bullish_momentum breakout_frame = Ok m /\
    res_setup r = (if b then Breakout
                   else if p then PullbackBounce
                   else if m then BullishMomentum
                   else NoSetup) /\
    (res_valid r = true <-> res_setup r <> NoSetup) /\
    (b = true -> p = true ->
     res_setup r = Breakout /\ res_setup r <> PullbackBounce).
Proof. apply (label_priority breakout_frame). discriminate. Defined.

Lemma breakout_rule_true (df : DataFrame) :
  breakout_rule df = true <->
  (1 <= last_index df)%nat /\
  exists h,
    nth_error (Scan.high20 df) (last_index df - 1) = Some (PyFloat (Fin h)) /\
    h < close_at df (last_index df).
Proof.
  unfold breakout_rule. cbv zeta. rewrite andb_true_iff, Nat.leb_le.
  split; intros [Hi H]; (split; [exact Hi|]).
  - assert (Hk : (last_index df - 1 < length (Scan.highs df))%nat)
      by (rewrite length_highs; unfold last_index in *; lia).
    rewrite high20_unpadded in *. rewrite float_at_tolist in H.
    rewrite tolist_lookup.
    destruct (rolling_max_cases 20 (Scan.highs df) _ ltac:(lia) Hk)
      as [[_ E] | [_ (x & l & _ & E)]];
      rewrite (nth_error_nth _ _ _ E) in H; rewrite E.
    + now rewrite fgt_NaN in H.
    + exists (Qmax_list x l). split; [reflexivity|]. now apply Qltb_lt.
  - destruct H as (h & Hh & Hlt).
    rewrite (float_at_lookup _ _ _ Hh). now apply Qltb_lt.
Qed.

(** The breakout rule holds exactly when the last bar has at least 20 bars
    before it and closes strictly above the largest high of the 20 bars
    before it, which is what [high20] holds at the bar before the last. *)
Lemma breakout_rule_window (df : DataFrame) :
  breakout_rule df = true <->
  (20 <= last_index df)%nat /\
  exists h,
    nth_error (Scan.high20 df) (last_index df - 1) = Some (PyFloat (Fin h)) /\
    (forall j, (last_index df - 20 <= j < last_index df)%nat ->
               high_at df j <= h) /\
    (exists j, (last_index df - 20 <= j < last_index df)%nat /\
               high_at df j = h) /\
    h < close_at df (last_index df).
Proof.
  rewrite breakout_rule_true. split.
  - intros (Hi & h & Hh & Hlt).
    assert (Hlen : (last_index df - 1 < length (Scan.highs df))%nat)
      by (rewrite length_highs; unfold last_index in *; lia).
    assert (H20 : (20 <= last_index df)%nat).
    { destruct (Nat.le_gt_cases 20 (last_index df)) as [H|H]; [exact H|].
      assert (Habs : absent_at (Scan.high20 df) (last_index df - 1))
        by (rewrite high20_unpadded; apply rolling_max_absent; [lia|exact Hlen|lia]).
      destruct Habs as (v & Ev & Hv). rewrite Hh in Ev.
      injection Ev as <-. discriminate Hv. }
    split; [exact H20|].
    destruct (high20_window_max df (last_index df - 1))
      as (h' & Hh' & Hub & Hex);
      [unfold last_index in *; lia|lia|].
    assert (Eh : h' = h) by congruence. subst h'.
    destruct Hex as (j & Hj & Ej).
    exists h. split; [exact Hh|split; [|split; [|exact Hlt]]].
    + intros j' Hj'. apply Hub. lia.
    + exists j. split; [lia|exact Ej].
  - intros (Hi & h & Hh & _ & _ & Hlt).
    split; [lia|]. exists h. split; [exact Hh|exact Hlt].
Qed.

(** C3: for every frame the breakout predicate returns, and it holds
    exactly when the last bar [i] has at least 20 bars before it and its
    close is strictly above the rolling 20-bar high at bar [i-1], where
    that high is present and is the largest of the highs of bars
    [i-20 .. i-1]: every one of them is at most it and one of them equals
    it.  Without a prior bar, or with that high absent, the predicate is
    false.  On 59 flat bars (close 100, high 101) followed by a bar closing
    at 105, [high20[58]] is 101, the predicate holds and the label is the
    breakout one. *)
Theorem breakout_predicate :
  (forall df : DataFrame,
     (exists b, Scan.breakout df = Ok b) /\
     (Scan.breakout df = Ok true <->
      (20 <= last_index df)%nat /\
      exists h,
        nth_error (Scan.high20 df) (last_index df - 1)
        = Some (PyFloat (Fin h)) /\
        (forall j, (last_index df - 20 <= j < last_index df)%nat ->
                   high_at df j <= h) /\
        (exists j, (last_index df - 20 <= j < last_index df)%nat /\
                   high_at df j = h) /\
        h < close_at df (last_index df)) /\
     (last_index df = 0%nat -> Scan.breakout df = Ok false) /\
     (absent_at (Scan.high20 df) (last_index df - 1) ->
      Scan.breakout df = Ok false)) /\
  value_at (Scan.high20 breakout_frame) 58 101 /\
  Scan.breakout breakout_frame = Ok true /\
  exists r,
    Scan.calculate_technicals breakout_frame = Ok r /\
    res_setup r = Breakout.
Proof.
  split.
  - intros df. rewrite !breakout_refines. split; [|split; [|split]].
    + eexists. reflexivity.
    + rewrite <- breakout_rule_window.
      split; [now intros [= H]|now intros ->].
    + intros H. unfold breakout_rule. now rewrite H.
    + intros H. unfold breakout_rule. cbv zeta.
      rewrite (float_at_absent _ _ H), fgt_NaN. now rewrite andb_false_r.
  - split; [|split].
    + exists 101. split; [vm_compute; reflexivity|reflexivity].
    + vm_compute. reflexivity.
    + eexists. split; [vm_compute; reflexivity|reflexivity].
Qed.

Lemma breakout_predicate_witness :
  Scan.breakout (rising_frame 1) = Ok false /\
  value_at (Scan.high20 breakout_frame) 58 101.
Proof.
  split.
  - destruct (proj1 breakout_predicate (rising_frame 1)) as (_ & _ & H & _).
    apply H. reflexivity.
  - exact (proj1 (proj2 breakout_predicate)).
Defined.

(** C7: the engine raises exactly on the empty frame.  With no bar the
    first read of a column at the last index is out of range; with at least
    one bar the computation and the classification return a result. *)
Theorem error_iff_empty (df : DataFrame) :
  (df = [] /\ Scan.calculate_technicals df = Raise IndexError) \/
  (df <> [] /\ exists r, Scan.calculate_technicals df = Ok r).
Proof.
  destruct df as [|b t].
  - left. split; reflexivity.
  - right. split; [discriminate|].
    eexists. apply calculate_technicals_refines. discriminate.
Qed.

(** C8: on a frame of exactly one bar the engine returns, without raising,
    [valid = False] and the no-setup label. *)
Theorem single_bar (b : Bar) :
  Scan.calculate_technicals [b]
  = Ok {| res_sma20 := [PyFloat NaN]; res_sma50 := [PyFloat NaN];
          res_valid := false; res_setup := NoSetup |}.
Proof. reflexivity. Qed.

(** C9: the two copies of [calculate_technicals] agree on every frame: both
    raise the same exception, or both return the same [sma20], [sma50],
    [valid] and [setup]. *)
Theorem two_files_agree (df : DataFrame) :
  ScanDisabled.calculate_technicals df = Scan.calculate_technicals df.
Proof. apply calculate_technicals_agree. Qed.

(** ** Frames shorter than the windows *)

Section ShortFrame.
Variable df : DataFrame.
Hypothesis Hne : df <> [].
Hypothesis Hshort : (length df < 20)%nat.

Lemma last_index_in_range : (last_index df < length df)%nat.
Proof.
  unfold last_index. destruct df; [congruence|]. simpl. lia.
Qed.

Lemma short_high20_absent :
  (1 <= last_index df)%nat ->
  absent_at (Scan.high20 df) (last_index df - 1).
Proof.
  intros Hi. pose proof last_index_in_range.
  rewrite high20_unpadded. apply rolling_max_absent;
    rewrite ?length_highs; lia.
Qed.

Lemma short_sma50_absent : absent_at (Scan.sma50 df) (last_index df).
Proof.
  pose proof last_index_in_range.
  rewrite sma50_unpadded. apply rolling_mean_absent;
    rewrite ?length_closes; lia.
Qed.

Lemma short_avg_vol20_absent :
  absent_at (Scan.avg_vol20 df) (last_index df).
Proof.
  pose proof last_index_in_range.
  rewrite avg_vol20_unpadded. apply rolling_mean_absent;
    rewrite ?length_map, ?length_volumes; lia.
Qed.

Lemma short_breakout_rule : breakout_rule df = false.
Proof.
  unfold breakout_rule. cbv zeta.
  destruct (Nat.leb_spec 1 (last_index df)) as [Hi|Hi]; [|reflexivity].
  now rewrite (float_at_absent _ _ (short_high20_absent Hi)), fgt_NaN.
Qed.

Lemma short_pullback_rule : pullback_rule df = false.
Proof.
  unfold pullback_rule. cbv zeta.
  rewrite (float_at_absent _ _ short_sma50_absent), fgt_NaN.
  now rewrite andb_false_r.
Qed.

Lemma short_momentum_rule : momentum_rule df = false.
Proof.
  unfold momentum_rule, volume_spike_rule. cbv zeta.
  rewrite (float_at_absent _ _ short_avg_vol20_absent), fmul_NaN, fgt_NaN.
  reflexivity.
Qed.

End ShortFrame.

(** C10: on a frame of 1 to 19 bars each of the three predicates is false,
    because the rolling 20-bar high at the bar before the last, the 50-bar
    average at the last bar and the 20-bar average volume at the last bar
    are all still absent; both files return [valid = False] and the no-setup
    label. *)
Theorem short_frame_no_setup (df : DataFrame) :
  df <> [] -> (length df < 20)%nat ->
  ((1 <= last_index df)%nat ->
   absent_at (Scan.high20 df) (last_index df - 1)) /\
  absent_at (Scan.sma50 df) (last_index df) /\
  absent_at (Scan.avg_vol20 df) (last_index df) /\
  Scan.breakout df = Ok false /\
  Scan.pullback_bounce df = Ok false /\
  Scan.bullish_momentum df = Ok false /\
  (exists r, Scan.calculate_technicals df = Ok r /\
             res_valid r = false /\ res_setup r = NoSetup) /\
  (exists r, ScanDisabled.calculate_technicals df = Ok r /\
             res_valid r = false /\ res_setup r = NoSetup).
Proof.
  intros Hne Hshort.
  assert (Hr : Scan.calculate_technicals df
               = Ok {| res_sma20 := Scan.sma20 df; res_sma50 := Scan.sma50 df;
                       res_valid := false; res_setup := NoSetup |}).
  { rewrite calculate_technicals_refines by exact Hne.
    now rewrite short_breakout_rule, short_pullback_rule,
      short_momentum_rule. }
  split; [now apply short_high20_absent|].
  split; [now apply short_sma50_absent|].
  split; [now apply short_avg_vol20_absent|].
  split; [now rewrite breakout_refines, short_breakout_rule|].
  split; [now rewrite pullback_bounce_refines, short_pullback_rule|].
  split; [now rewrite bullish_momentum_refines, short_momentum_rule|].
  split.
  - eexists. split; [exact Hr|]. split; reflexivity.
  - eexists. rewrite calculate_technicals_agree.
    split; [exact Hr|]. split; reflexivity.
Qed.

Lemma short_frame_no_setup_witness :
  Scan.breakout (rising_frame 19) = Ok false /\
  Scan.pullback_bounce (rising_frame 19) = Ok false /\
  Scan.bullish_momentum (rising_frame 19) = Ok false.
Proof.
  destruct (short_frame_no_setup (rising_frame 19))
    as (_ & _ & _ & Hb & Hp & Hm & _).
  - discriminate.
  - vm_compute. lia.
  - repeat split; assumption.
Defined.

(** ** The relative strength index *)

Lemma where_pos_nonneg (d : list Q) : Forall (fun x => 0 <= x) (where_pos d).
Proof.
  unfold where_pos. induction d as [|a d IH]; constructor; [|exact IH].
  destruct (Qltb 0 a) eqn:E; [|lra]. apply Qltb_lt in E. lra.
Qed.

Lemma where_neg_nonneg (d : list Q) : Forall (fun x => 0 <= x) (where_neg d).
Proof.
  unfold where_neg. induction d as [|a d IH]; constructor; [|exact IH].
  destruct (Qltb a 0) eqn:E; [|lra]. apply Qltb_lt in E. lra.
Qed.

Lemma Forall_firstn {A : Type} (P : A -> Prop) : forall (n : nat) (l : list A),
  Forall P l -> Forall P (firstn n l).
Proof.
  induction n as [|n IH]; intros l H; [constructor|].
  destruct H; simpl; constructor; auto.
Qed.

Lemma Forall_skipn {A : Type} (P : A -> Prop) : forall (n : nat) (l : list A),
  Forall P l -> Forall P (skipn n l).
Proof.
  induction n as [|n IH]; intros l H; [exact H|].
  destruct H; simpl; [constructor|auto].
Qed.

Lemma Qsum_slice_nonneg (xs : list Q) (lo hi : nat) :
  Forall (fun x => 0 <= x) xs -> 0 <= Qsum (slice xs lo hi).
Proof.
  intros H. apply Qsum_nonneg. now apply Forall_firstn, Forall_skipn.
Qed.

(** A full window over non-negative values has a non-negative mean. *)
Lemma rolling_mean_nonneg (w : nat) (xs : list Q) (k : nat) (q : Q) :
  (0 < w)%nat -> Forall (fun x => 0 <= x) xs ->
  nth_error (rolling_mean w xs) k = Some (Fin q) -> 0 <= q.
Proof.
  intros Hw Hxs Hq.
  assert (Hk : (k < length xs)%nat).
  { rewrite <- (length_rolling_mean w). apply nth_error_Some. congruence. }
  destruct (Nat.lt_ge_cases (S k) w) as [Hlt|Hge].
  - rewrite rolling_mean_warmup in Hq by assumption. discriminate.
  - destruct (rolling_mean_full w xs k Hw Hk Hge) as (q' & Hq' & _ & Hsum).
    assert (q' = q) by congruence. subst q'.
    pose proof (Qsum_slice_nonneg xs (S k - w) (S k) Hxs) as Hs.
    rewrite <- Hsum in Hs.
    assert (Hpos : 0 < inject_Z (Z.of_nat w)).
    { unfold Qlt, inject_Z. simpl. lia. }
    destruct (Qlt_le_dec q 0) as [Hneg|]; [|assumption].
    exfalso. apply (Qlt_not_le _ _ (Qmult_lt_0_compat _ _ Hpos
      (proj1 (Qlt_minus_iff q 0) Hneg))).
    lra.
Qed.

(** The index computed from an average gain [g] and an average loss [l],
    neither negative: undefined when both are zero, otherwise a number
    between 0 and 100, and 100 when only the loss is zero. *)
Lemma rsi_of_gain_loss (g l : Q) :
  0 <= g -> 0 <= l ->
  (g == 0 /\ l == 0 /\ rsi_of_rs (fdiv (Fin g) (Fin l)) = NaN) \/
  (~ (g == 0 /\ l == 0) /\
   exists q, rsi_of_rs (fdiv (Fin g) (Fin l)) = Fin q /\
             0 <= q /\ q <= 100 /\ (l == 0 -> q == 100)).
Proof.
  intros Hg Hl. unfold rsi_of_rs. cbn [fdiv].
  destruct (Qeqb l 0) eqn:El.
  - apply Qeqb_eq in El. unfold inf_of_sign.
    destruct (Qltb 0 g) eqn:Eg.
    + apply Qltb_lt in Eg. right. split; [lra|].
      exists (100 + - 0). cbn. repeat split; lra.
    + apply Qltb_ge in Eg.
      replace (Qltb g 0) with false
        by (symmetry; now apply Qltb_ge).
      left. repeat split; [lra|exact El].
  - apply Qeqb_neq in El. right. split; [tauto|].
    assert (Hlpos : 0 < l) by (destruct (Qlt_le_dec 0 l); [assumption|lra]).
    assert (Hrs : 0 <= g / l) by (apply Qle_shift_div_l; lra).
    cbn [fadd fdiv].
    replace (Qeqb (1 + g / l) 0) with false
      by (symmetry; apply Qeqb_neq; lra).
    exists (100 + - (100 / (1 + g / l))). cbn.
    assert (H1 : 0 <= 100 / (1 + g / l)) by (apply Qle_shift_div_l; lra).
    assert (H2 : 100 / (1 + g / l) <= 100) by (apply Qle_shift_div_r; lra).
    repeat split; lra.
Qed.

Lemma roll_up_nonempty (df : DataFrame) (j : nat) (x : float) :
  nth_error (Scan.roll_up df) j = Some x -> (S j < length df)%nat.
Proof.
  intros H. assert (Hj : (j < length (Scan.roll_up df))%nat)
    by (apply nth_error_Some; congruence).
  unfold Scan.roll_up in Hj. rewrite length_rolling_mean, length_up in Hj.
  lia.
Qed.

Lemma rsi_lookup (df : DataFrame) (j : nat) (ru rd : float) :
  nth_error (Scan.roll_up df) j = Some ru ->
  nth_error (Scan.roll_down df) j = Some rd ->
  nth_error (Scan.rsi df) (S j) = Some (PyFloat (rsi_of_rs (fdiv ru rd))).
Proof.
  intros Hu Hd. pose proof (roll_up_nonempty df j ru Hu) as Hj.
  rewrite rsi_padded by (intros E; rewrite E in Hj; simpl in Hj; lia).
  cbn [nth_error]. rewrite tolist_lookup, nth_error_map.
  unfold Scan.rs. now rewrite (series_div_lookup _ _ _ _ _ Hu Hd).
Qed.

Lemma avg_gain_loss_cases (df : DataFrame) (j : nat) :
  (S j < length df)%nat ->
  ((S j < 14)%nat /\
   nth_error (Scan.roll_up df) j = Some NaN /\
   nth_error (Scan.roll_down df) j = Some NaN) \/
  ((14 <= S j)%nat /\
   exists g l,
     nth_error (Scan.roll_up df) j = Some (Fin g) /\
     nth_error (Scan.roll_down df) j = Some (Fin l) /\
     0 <= g /\ 0 <= l).
Proof.
  intros Hj.
  assert (Hu : (j < length (Scan.up df))%nat) by (rewrite length_up; lia).
  assert (Hd : (j < length (Scan.down df))%nat) by (rewrite length_down; lia).
  unfold Scan.roll_up, Scan.roll_down.
  destruct (Nat.lt_ge_cases (S j) 14) as [Hlt|Hge].
  - left. split; [exact Hlt|].
    split; apply rolling_mean_warmup; auto; lia.
  - right. split; [exact Hge|].
    destruct (rolling_mean_full 14 (Scan.up df) j) as (g & Hg & _); auto; try lia.
    destruct (rolling_mean_full 14 (Scan.down df) j) as (l & Hl & _); auto; try lia.
    exists g, l. repeat split; auto.
    + apply (rolling_mean_nonneg 14 (Scan.up df) j); auto; try lia.
      apply where_pos_nonneg.
    + apply (rolling_mean_nonneg 14 (Scan.down df) j); auto; try lia.
      apply where_neg_nonneg.
Qed.

Lemma rsi_first (df : DataFrame) :
  df <> [] -> nth_error (Scan.rsi df) 0 = Some PyNone.
Proof. intros Hne. now rewrite rsi_padded. Qed.

(** *** The gains and losses of a window, read from the closes *)













(** C6: for every frame and every bar at which the RSI entry is present,
    the entry is a number between 0 and 100, both included. *)
Theorem rsi_bounds (df : DataFrame) (k : nat) (v : pyval) :
  nth_error (Scan.rsi df) k = Some v ->
  is_absent v = false ->
  exists q, v = PyFloat (Fin q) /\ 0 <= q /\ q <= 100.
Proof.
  intros Hv Hp.
  assert (Hk : (k < length df)%nat).
  { rewrite <- length_rsi. apply nth_error_Some. congruence. }
  destruct k as [|j].
  - rewrite rsi_first in Hv
      by (intros E; rewrite E in Hk; simpl in Hk; lia).
    injection Hv as <-. discriminate.
  - destruct (avg_gain_loss_cases df j Hk)
      as [(Hlt & Hu & Hd) | (Hge & g & l & Hu & Hd & Hg & Hl)];
      rewrite (rsi_lookup df j _ _ Hu Hd) in Hv; injection Hv as <-.
    + discriminate.
    + destruct (rsi_of_gain_loss g l Hg Hl)
        as [(_ & _ & E) | (_ & q & E & H0 & H100 & _)]; cbn [fdiv] in E.
      * rewrite E in Hp. discriminate.
      * rewrite E. exists q. auto.
Qed.

Lemma rsi_bounds_witness :
  exists q,
    nth 14 (Scan.rsi (zigzag_frame 15)) PyNone = PyFloat (Fin q) /\
    0 <= q /\ q <= 100.
Proof.
  apply (rsi_bounds (zigzag_frame 15) 14).
  - vm_compute. reflexivity.
  - vm_compute. reflexivity.
Defined.

(** ** Scenarios *)

(** On 60 identical bars both averages are 100, the RSI is [0/0] at every
    bar past the warm-up, and no setup is found. *)
Example flat_scenario :
  value_at (Scan.sma20 flat_frame) 59 100 /\
  value_at (Scan.sma50 flat_frame) 59 100 /\
  absent_at (Scan.rsi flat_frame) 59 /\
  exists r, Scan.calculate_technicals flat_frame = Ok r /\
            res_valid r = false /\ res_setup r = NoSetup.
Proof.
  split; [|split; [|split]].
  - eexists. split; [vm_compute; reflexivity|reflexivity].
  - eexists. split; [vm_compute; reflexivity|reflexivity].
  - eexists. split; [vm_compute; reflexivity|reflexivity].
  - eexists. split; [vm_compute; reflexivity|]. split; reflexivity.
Qed.

(** Twenty bars are enough for a setup: the bound of 20 bars below which
    nothing can qualify is sharp. *)
Example twenty_bars_can_qualify :
  length momentum_frame = 20%nat /\
  Scan.breakout momentum_frame = Ok false /\
  Scan.pullback_bounce momentum_frame = Ok false /\
  Scan.bullish_momentum momentum_frame = Ok true /\
  exists r, Scan.calculate_technicals momentum_frame = Ok r /\
            res_valid r = true /\ res_setup r = BullishMomentum.
Proof.
  repeat split; try (vm_compute; reflexivity).
  eexists. split; [vm_compute; reflexivity|]. split; reflexivity.
Qed.

(** * Further properties of [calculate_technicals] *)

(** ** The rolling high and the breakout *)

(** Past its warm-up, [high20[k]] is one of the highs of bars [k-19 .. k]
    and no high among them is larger. *)
Theorem high20_is_window_max (df : DataFrame) (k : nat) :
  (k < length df)%nat -> (19 <= k)%nat ->
  exists h,
    nth_error (Scan.high20 df) k = Some (PyFloat (Fin h)) /\
    (forall j, (k - 19 <= j <= k)%nat -> high_at df j <= h) /\
    (exists j, (k - 19 <= j <= k)%nat /\ high_at df j = h).
Proof. apply high20_window_max. Qed.

Lemma high20_is_window_max_witness :
  exists h,
    nth_error (Scan.high20 breakout_frame) 59 = Some (PyFloat (Fin h)) /\
    (forall j, (59 - 19 <= j <= 59)%nat -> high_at breakout_frame j <= h) /\
    (exists j, (59 - 19 <= j <= 59)%nat /\ high_at breakout_frame j = h).
Proof.
  apply (high20_is_window_max breakout_frame 59); vm_compute; lia.
Defined.

(** The breakout predicate holds exactly when the frame has at least 21
    bars and the last close is strictly above the high of each of the 20
    bars before the last one. *)
Theorem breakout_above_prior_highs (df : DataFrame) :
  Scan.breakout df = Ok true <->
  (21 <= length df)%nat /\
  forall j, (last_index df - 20 <= j < last_index df)%nat ->
            high_at df j < close_at df (last_index df).
Proof.
  rewrite breakout_refines.
  assert (Hiff : Ok (breakout_rule df) = Ok true <-> breakout_rule df = true)
    by (split; [now intros [= H]|now intros ->]).
  rewrite Hiff, breakout_rule_true. unfold last_index. split.
  - intros (Hi & h & Hh & Hlt).
    assert (Hk : (pred (length df) - 1 < length df)%nat) by lia.
    destruct (Nat.lt_ge_cases (pred (length df) - 1) 19) as [Hw|Hw].
    + exfalso.
      assert (Ha : absent_at (Scan.high20 df) (pred (length df) - 1)).
      { rewrite high20_unpadded. apply rolling_max_absent;
          rewrite ?length_highs; lia. }
      destruct Ha as (v & Hv & Ha). rewrite Hh in Hv.
      injection Hv as <-. discriminate.
    + split; [lia|]. intros j Hj.
      destruct (high20_window_max df _ Hk Hw) as (h' & Hh' & Hmax & _).
      rewrite Hh in Hh'. injection Hh' as <-.
      apply Qle_lt_trans with h; [|exact Hlt]. apply Hmax. lia.
  - intros (Hlen & Hall). split; [lia|].
    assert (Hk : (pred (length df) - 1 < length df)%nat) by lia.
    destruct (high20_window_max df _ Hk ltac:(lia))
      as (h & Hh & _ & j & Hj & E).
    exists h. split; [exact Hh|]. rewrite <- E. apply Hall. lia.
Qed.

(** ** What the other two predicates require *)

Lemma Ok_true_iff (b : bool) : Ok b = Ok true <-> b = true.
Proof. split; [now intros [= H]|now intros ->]. Qed.

Lemma flt_Fin (a b : Q) : flt (Fin a) (Fin b) = true <-> a < b.
Proof. apply Qltb_lt. Qed.

(** An entry of a rolling mean is NaN while the window warms up. *)
Lemma float_at_rolling_mean (w : nat) (xs : list Q) (k : nat) :
  (0 < w)%nat -> (k < length xs)%nat ->
  ((S k < w)%nat /\ float_at (tolist (rolling_mean w xs)) k = NaN) \/
  (w <= S k)%nat.
Proof.
  intros Hw Hk. rewrite float_at_tolist.
  destruct (Nat.lt_ge_cases (S k) w) as [Hlt|Hge].
  - left. split; [exact Hlt|].
    apply nth_error_nth. now apply rolling_mean_warmup.
  - right. exact Hge.
Qed.

Lemma last_index_lt (df : DataFrame) :
  df <> [] -> (last_index df < length df)%nat.
Proof. intros Hne. unfold last_index. destruct df; [congruence|simpl; lia]. Qed.

(** The pullback predicate can hold only on a frame of at least 50 bars
    whose last close is above the close of the bar before. *)
Theorem pullback_bounce_requires (df : DataFrame) :
  Scan.pullback_bounce df = Ok true ->
  (50 <= length df)%nat /\
  close_at df (last_index df - 1) < close_at df (last_index df).
Proof.
  intros H.
  assert (Hne : df <> []) by (intros ->; discriminate H).
  pose proof (last_index_lt df Hne) as Hi.
  rewrite (pullback_bounce_refines df Hne), Ok_true_iff in H.
  unfold pullback_rule in H. cbv zeta in H.
  rewrite !andb_true_iff, Nat.leb_le in H.
  rewrite sma50_unpadded in H.
  destruct H as [[[H1 H50] H20] Hc].
  assert (Hlen : (last_index df < length (Scan.closes df))%nat) by in_range.
  destruct (float_at_rolling_mean 50 (Scan.closes df) (last_index df)
              ltac:(lia) Hlen) as [[_ E] | Hw].
  - rewrite E, fgt_NaN in H50. discriminate.
  - split; [unfold last_index in Hw; lia|now apply Qltb_lt].
Qed.

(** 50 bars are enough. *)
Lemma pullback_bounce_requires_witness :
  length pullback_frame = 50%nat /\
  Scan.pullback_bounce pullback_frame = Ok true /\
  close_at pullback_frame (last_index pullback_frame - 1)
  < close_at pullback_frame (last_index pullback_frame).
Proof.
  split; [reflexivity|]. split; [vm_compute; reflexivity|].
  apply (pullback_bounce_requires pullback_frame). vm_compute. reflexivity.
Defined.

(** An RSI entry is [None] (bar 0 only), NaN, or a number. *)
Lemma rsi_entry_cases (df : DataFrame) (k : nat) :
  (k < length df)%nat ->
  float_at (Scan.rsi df) k = NaN \/
  exists q, nth_error (Scan.rsi df) k = Some (PyFloat (Fin q)).
Proof.
  intros Hk. destruct k as [|j].
  - left. unfold float_at.
    rewrite (nth_error_nth _ _ _ (rsi_first df
      ltac:(intros E; rewrite E in Hk; simpl in Hk; lia))).
    reflexivity.
  - destruct (avg_gain_loss_cases df j Hk)
      as [(Hlt & Hu & Hd) | (Hge & g & l & Hu & Hd & Hg & Hl)];
      pose proof (rsi_lookup df j _ _ Hu Hd) as E.
    + left. now rewrite (float_at_lookup _ _ _ E).
    + destruct (rsi_of_gain_loss g l Hg Hl)
        as [(_ & _ & E') | (_ & q & E' & _)]; cbn [fdiv] in E';
        cbn [fdiv] in E; rewrite E' in E.
      * left. now rewrite (float_at_lookup _ _ _ E).
      * right. exists q. exact E.
Qed.

(** The momentum predicate can hold only on a frame of at least 20 bars
    whose last bar closes above its open and above the high of the bar
    before, and at which the RSI is a number above 55. *)
Theorem bullish_momentum_requires (df : DataFrame) :
  Scan.bullish_momentum df = Ok true ->
  (20 <= length df)%nat /\
  open_at df (last_index df) < close_at df (last_index df) /\
  high_at df (last_index df - 1) < close_at df (last_index df) /\
  exists r, nth_error (Scan.rsi df) (last_index df) = Some (PyFloat (Fin r))
            /\ 55 < r.
Proof.
  intros H.
  assert (Hne : df <> []) by (intros ->; discriminate H).
  pose proof (last_index_lt df Hne) as Hi.
  rewrite (bullish_momentum_refines df Hne), Ok_true_iff in H.
  unfold momentum_rule, volume_spike_rule, big_green_rule,
    rsi_strength_rule, above_sma20_rule in H.
  cbv zeta in H. rewrite !andb_true_iff, Nat.leb_le in H.
  rewrite avg_vol20_unpadded in H.
  destruct H as [[[Hv [[H1 Ho] Hh]] Hr] Ha].
  assert (Hlen : (last_index df
                  < length (map inject_Z (Scan.volumes df)))%nat)
    by (rewrite length_map; in_range).
  destruct (float_at_rolling_mean 20 (map inject_Z (Scan.volumes df))
              (last_index df) ltac:(lia) Hlen) as [[_ E] | Hw].
  { rewrite E in Hv. cbn [fmul] in Hv. rewrite fgt_NaN in Hv.
    discriminate. }
  split; [unfold last_index in Hw; lia|].
  split; [now apply Qltb_lt|]. split; [now apply Qltb_lt|].
  destruct (rsi_entry_cases df (last_index df) Hi) as [En | [r Er]].
  - rewrite En in Hr. discriminate.
  - exists r. split; [exact Er|].
    rewrite (float_at_lookup _ _ _ Er) in Hr. now apply flt_Fin.
Qed.

(** 20 bars are enough. *)
Lemma bullish_momentum_requires_witness :
  length momentum_frame = 20%nat /\
  Scan.bullish_momentum momentum_frame = Ok true /\
  open_at momentum_frame (last_index momentum_frame)
  < close_at momentum_frame (last_index momentum_frame).
Proof.
  split; [reflexivity|]. split; [vm_compute; reflexivity|].
  apply (bullish_momentum_requires momentum_frame). vm_compute. reflexivity.
Defined.

(** ** The returned arrays and the padding *)

(** Whenever the engine returns, the two arrays it returns have one entry
    per bar. *)
Theorem returned_arrays_aligned (df : DataFrame) (r : Technicals) :
  Scan.calculate_technicals df = Ok r ->
  length (res_sma20 r) = length df /\ length (res_sma50 r) = length df.
Proof.
  intros H. destruct df as [|b t] eqn:E; [discriminate|]. rewrite <- E in *.
  rewrite calculate_technicals_refines in H by (rewrite E; discriminate).
  injection H as <-. cbn [res_sma20 res_sma50].
  now rewrite length_sma20, length_sma50.
Qed.

Lemma returned_arrays_aligned_witness :
  length (Scan.sma20 [flat_bar]) = 1%nat /\
  length (Scan.sma50 [flat_bar]) = 1%nat.
Proof.
  apply (returned_arrays_aligned [flat_bar]
           {| res_sma20 := Scan.sma20 [flat_bar];
              res_sma50 := Scan.sma50 [flat_bar];
              res_valid := false; res_setup := NoSetup |}).
  reflexivity.
Defined.

(** [pad] never drops an entry: the result is as long as the longer of the
    array and the requested length, the added entries are [None] and come
    first, and the array follows unchanged. *)
Theorem pad_left_aligns (arr : list pyval) (n : nat) :
  length (pad arr n) = Nat.max n (length arr) /\
  (forall k, (k < n - length arr)%nat ->
             nth_error (pad arr n) k = Some PyNone) /\
  (forall k, nth_error (pad arr n) (n - length arr + k) = nth_error arr k).
Proof.
  unfold pad.
  replace (Z.to_nat (Z.of_nat n - Z.of_nat (length arr)))
    with (n - length arr)%nat by lia.
  split; [|split].
  - rewrite length_app, repeat_length. lia.
  - intros k Hk. rewrite nth_error_app1 by (now rewrite repeat_length).
    now apply nth_error_repeat.
  - intros k. rewrite nth_error_app2 by (rewrite repeat_length; lia).
    rewrite repeat_length. f_equal. lia.
Qed.

(** ** No look-ahead *)

Lemma firstn_seq (n a len : nat) :
  firstn n (seq a len) = seq a (Nat.min n len).
Proof.
  revert a len. induction n as [|n IH]; intros a [|len]; try reflexivity.
  simpl. now rewrite IH.
Qed.

Lemma roll_mean_loop_firstn (w minp n : nat) (xs : list Q) :
  forall (todo : list Q) (k : nat) (st : nat * Q) (m : nat),
    (k + m <= n)%nat ->
    roll_mean_loop w minp (firstn n xs) (firstn m todo) k st
    = firstn m (roll_mean_loop w minp xs todo k st).
Proof.
  induction todo as [|x rest IH]; intros k st [|m] Hle; try reflexivity.
  cbn [firstn roll_mean_loop]. rewrite nth_firstn.
  replace (k - w <? n)%nat with true by (symmetry; apply Nat.ltb_lt; lia).
  f_equal. apply IH. lia.
Qed.

Lemma rolling_mean_firstn (w n : nat) (xs : list Q) :
  rolling_mean w (firstn n xs) = firstn n (rolling_mean w xs).
Proof.
  unfold rolling_mean. apply roll_mean_loop_firstn. lia.
Qed.

Lemma slice_firstn (xs : list Q) (n lo hi : nat) :
  (hi <= n)%nat -> slice (firstn n xs) lo hi = slice xs lo hi.
Proof.
  intros H. unfold slice.
  rewrite skipn_firstn_comm, firstn_firstn. f_equal. lia.
Qed.

Lemma rolling_max_firstn (w n : nat) (xs : list Q) :
  rolling_max w (firstn n xs) = firstn n (rolling_max w xs).
Proof.
  unfold rolling_max.
  rewrite firstn_map, firstn_seq, length_firstn.
  apply map_ext_in. intros k Hk. apply in_seq in Hk.
  rewrite slice_firstn by lia. reflexivity.
Qed.

Lemma np_diff_firstn : forall (xs : list Q) (n : nat),
  np_diff (firstn n xs) = firstn (n - 1) (np_diff xs).
Proof.
  induction xs as [|x [|y t] IH]; intros [|[|n]]; try reflexivity.
  specialize (IH (S n)).
  change (firstn (S (S n)) (x :: y :: t))
      with (x :: y :: firstn n t).
    change (firstn (S n) (y :: t)) with (y :: firstn n t) in IH.
    change (np_diff (x :: y :: firstn n t))
      with ((y - x) :: np_diff (y :: firstn n t)).
    rewrite IH.
    change (np_diff (x :: y :: t)) with ((y - x) :: np_diff (y :: t)).
    cbn [firstn Nat.sub]. now rewrite Nat.sub_0_r.
Qed.

Lemma series_div_firstn : forall (a b : list float) (n : nat),
  series_div (firstn n a) (firstn n b) = firstn n (series_div a b).
Proof.
  induction a as [|x a IH]; intros [|y b] [|n]; try reflexivity.
  simpl. now rewrite IH.
Qed.

Lemma rs_firstn (df : DataFrame) (n : nat) :
  Scan.rs (firstn n df) = firstn (n - 1) (Scan.rs df).
Proof.
  unfold Scan.rs, Scan.roll_up, Scan.roll_down, Scan.up, Scan.down,
    Scan.delta, Scan.closes, where_pos, where_neg.
  rewrite <- firstn_map, np_diff_firstn, <- !firstn_map,
    !rolling_mean_firstn.
  apply series_div_firstn.
Qed.

(** Every indicator column of the first [n] bars is the first [n] entries
    of the column of the whole frame: an entry never depends on a later
    bar. *)
Theorem indicators_look_back_only (df : DataFrame) (n : nat) :
  Scan.sma20 (firstn n df) = firstn n (Scan.sma20 df) /\
  Scan.sma50 (firstn n df) = firstn n (Scan.sma50 df) /\
  Scan.rsi (firstn n df) = firstn n (Scan.rsi df) /\
  Scan.high20 (firstn n df) = firstn n (Scan.high20 df) /\
  Scan.avg_vol20 (firstn n df) = firstn n (Scan.avg_vol20 df).
Proof.
  rewrite !sma20_unpadded, !sma50_unpadded, !high20_unpadded,
    !avg_vol20_unpadded.
  unfold Scan.closes, Scan.highs, Scan.volumes, tolist.
  rewrite <- !firstn_map, !rolling_mean_firstn, rolling_max_firstn.
  repeat split; try (symmetry; apply firstn_map).
  destruct n as [|n]; [reflexivity|].
  destruct df as [|b t]; [reflexivity|].
  rewrite !rsi_padded by discriminate. rewrite rs_firstn.
  cbn [firstn]. unfold tolist. rewrite <- !firstn_map.
  f_equal. f_equal. f_equal. f_equal. lia.
Qed.

(** * The screener: [parse_price] *)

Lemma digit_not_dot (c : ascii) : is_digit c = true -> is_dot c = false.
Proof.
  unfold is_digit, is_dot. intros H.
  destruct (Ascii.eqb_spec c "."%char) as [->|]; [discriminate|reflexivity].
Qed.

Lemma scan_digits_spec : forall (s : string) (acc : Z) (n : nat)
    (v : Z) (m : nat) (r : string),
  scan_digits s acc n = (v, m, r) ->
  (m + count_chars is_digit r = n + count_chars is_digit s)%nat /\
  count_chars is_dot r = count_chars is_dot s /\
  (0 <= acc -> 0 <= v)%Z /\
  (forall p, count_chars p r <= count_chars p s)%nat /\
  (r = EmptyString \/ exists c r', r = String c r' /\ is_digit c = false).
Proof.
  induction s as [|c s IH]; intros acc n v m r H; cbn [scan_digits] in H.
  - injection H as <- <- <-. repeat split; auto.
  - destruct (is_digit c) eqn:Ed.
    + apply IH in H. destruct H as (H1 & H2 & H3 & H4 & H5).
      cbn [count_chars]. rewrite Ed, (digit_not_dot c Ed). cbv iota.
      repeat split; auto; try lia.
      * intros Hacc. apply H3. unfold digit_value. lia.
      * intros p. specialize (H4 p). cbn [count_chars]. destruct (p c); lia.
    + injection H as <- <- <-. repeat split; auto.
      right. eauto.
Qed.

Lemma count_chars_re_sub (p : ascii -> bool) (s : string) :
  (forall c, p c = true -> (is_digit c || is_dot c)%bool = true) ->
  count_chars p (re_sub_non_numeric s) = count_chars p s.
Proof.
  intros Hp. induction s as [|c s IH]; [reflexivity|]. simpl.
  destruct (is_digit c || is_dot c)%bool eqn:E; simpl; rewrite IH; auto.
  destruct (p c) eqn:Epc; [|reflexivity].
  apply Hp in Epc. congruence.
Qed.

(** Every character of the cleaned string is a digit or a dot. *)
Lemma re_sub_only_numeric (s : string) :
  count_chars (fun c => negb (is_digit c || is_dot c)) (re_sub_non_numeric s)
  = 0%nat.
Proof.
  induction s as [|c s IH]; [reflexivity|]. simpl.
  destruct (is_digit c || is_dot c)%bool eqn:E; [|exact IH].
  simpl. now rewrite E.
Qed.

Lemma non_digit_is_dot (c : ascii) (r s : string) :
  count_chars (fun c => negb (is_digit c || is_dot c)) s = 0%nat ->
  (count_chars (fun c => negb (is_digit c || is_dot c)) (String c r)
   <= count_chars (fun c => negb (is_digit c || is_dot c)) s)%nat ->
  is_digit c = false -> is_dot c = true.
Proof.
  intros H0 Hle Hd. rewrite H0 in Hle. simpl in Hle. rewrite Hd in Hle.
  destruct (is_dot c); [reflexivity|simpl in Hle; lia].
Qed.

(** On a string of digits and dots, [float] fails exactly when there is no
    digit or more than one dot. *)
Lemma py_float_None (t : string) :
  count_chars (fun c => negb (is_digit c || is_dot c)) t = 0%nat ->
  (py_float t = None <->
   count_chars is_digit t = 0%nat \/ (2 <= count_chars is_dot t)%nat).
Proof.
  intros Hnum. unfold py_float.
  destruct (scan_digits t 0 0) as [[ip ni] rest] eqn:E1.
  destruct (scan_digits_spec _ _ _ _ _ _ E1) as (Hd & Hdot & _ & Hsub & Hr).
  destruct rest as [|c rest'].
  - simpl in Hd, Hdot.
    destruct (Nat.eqb_spec ni 0); split; intros H; auto; try lia;
      try discriminate.
  - destruct Hr as [|(c0 & r0 & [= <- <-] & Hc)]; [discriminate|].
    pose proof (non_digit_is_dot c rest' t Hnum (Hsub _) Hc) as Hcd.
    rewrite Hcd.
    destruct (scan_digits rest' 0 0) as [[fp nf] rest''] eqn:E2.
    destruct (scan_digits_spec _ _ _ _ _ _ E2)
      as (Hd' & Hdot' & _ & Hsub' & Hr').
    cbn [count_chars] in Hd, Hdot. rewrite Hc in Hd. rewrite Hcd in Hdot.
    destruct rest'' as [|c' rest3].
    + simpl in Hd', Hdot'.
      destruct (Nat.eqb_spec (ni + nf) 0); split; intros H; auto; try lia;
        try discriminate.
    + destruct Hr' as [|(c1 & r1 & [= <- <-] & Hc')]; [discriminate|].
      assert (Hc'd : is_dot c' = true).
      { apply (non_digit_is_dot c' rest3 t Hnum); [|exact Hc'].
        eapply Nat.le_trans; [apply Hsub'|].
        eapply Nat.le_trans; [|apply Hsub]. simpl. lia. }
      cbn [count_chars] in Hdot'. rewrite Hc'd in Hdot'.
      split; [intros _; right; lia|reflexivity].
Qed.

(** On a string of code points below 256 (the strings of this model, among
    which the only digits are the ten ASCII ones), [parse_price] fails
    exactly when the string has no digit or has more than one dot. *)
Theorem parse_price_fails_iff (s : string) :
  parse_price (Some s) = None <->
  count_chars is_digit s = 0%nat \/ (2 <= count_chars is_dot s)%nat.
Proof.
  unfold parse_price.
  destruct (String.eqb_spec s "") as [->|Hne]; [simpl; tauto|].
  destruct (String.eqb_spec s "N/A") as [->|Hna]; [simpl; tauto|].
  cbn [orb].
  rewrite (py_float_None _ (re_sub_only_numeric s)).
  rewrite !count_chars_re_sub; [tauto| |];
    intros c Hc; rewrite Hc; auto using orb_true_r.
Qed.

Lemma py_float_nonneg (t : string) (q : Q) : py_float t = Some q -> 0 <= q.
Proof.
  unfold py_float.
  destruct (scan_digits t 0 0) as [[ip ni] rest] eqn:E1.
  destruct (scan_digits_spec _ _ _ _ _ _ E1) as (_ & _ & Hip & _).
  specialize (Hip ltac:(lia)).
  assert (Hq : 0 <= inject_Z ip) by (unfold Qle; simpl; lia).
  destruct rest as [|c rest'].
  - destruct (ni =? 0)%nat; [discriminate|]. now intros [= <-].
  - destruct (is_dot c); [|discriminate].
    destruct (scan_digits rest' 0 0) as [[fp nf] rest''] eqn:E2.
    destruct (scan_digits_spec _ _ _ _ _ _ E2) as (_ & _ & Hfp & _).
    specialize (Hfp ltac:(lia)).
    destruct rest''; [|discriminate].
    destruct (ni + nf =? 0)%nat; [discriminate|]. intros [= <-].
    assert (Hpow : 0 < inject_Z (10 ^ Z.of_nat nf)).
    { unfold Qlt. simpl. pose proof (Z.pow_pos_nonneg 10 (Z.of_nat nf)). lia. }
    assert (Hf : 0 <= inject_Z fp / inject_Z (10 ^ Z.of_nat nf)).
    { apply Qle_shift_div_l; [exact Hpow|]. unfold Qle. simpl. lia. }
    lra.
Qed.

(** [parse_price] never returns a negative price: a minus sign is dropped
    with the other characters that are neither digits nor dots. *)
Theorem parse_price_nonneg (cell : option string) (q : Q) :
  parse_price cell = Some q -> 0 <= q.
Proof.
  destruct cell as [s|]; [|discriminate]. unfold parse_price.
  destruct ((s =? "") || (s =? "N/A"))%string%bool; [discriminate|].
  apply py_float_nonneg.
Qed.

Lemma parse_price_nonneg_witness : 0 <= 5.
Proof.
  apply (parse_price_nonneg (Some "-$5"%string) 5). vm_compute. reflexivity.
Defined.

Lemma re_sub_idempotent (s : string) :
  re_sub_non_numeric (re_sub_non_numeric s) = re_sub_non_numeric s.
Proof.
  induction s as [|c s IH]; [reflexivity|]. simpl.
  destruct (is_digit c || is_dot c)%bool eqn:E; [|exact IH].
  simpl. now rewrite E, IH.
Qed.

Lemma parse_price_cleaned (s : string) :
  s <> "N/A"%string ->
  parse_price (Some s) = py_float (re_sub_non_numeric s).
Proof.
  intros Hna. unfold parse_price.
  destruct (String.eqb_spec s "") as [->|Hne]; [reflexivity|].
  destruct (String.eqb_spec s "N/A"); [contradiction|reflexivity].
Qed.

(** Apart from the exact string "N/A", the price depends only on the
    digits and dots of the string: two strings that differ in currency
    signs, commas, blanks, letters or signs parse alike. *)
Theorem parse_price_ignores_other_characters (s t : string) :
  s <> "N/A"%string -> t <> "N/A"%string ->
  re_sub_non_numeric s = re_sub_non_numeric t ->
  parse_price (Some s) = parse_price (Some t).
Proof.
  intros Hs Ht E. now rewrite !parse_price_cleaned, E by assumption.
Qed.

Lemma parse_price_ignores_other_characters_witness :
  parse_price (Some "$1,234.50"%string) = parse_price (Some "1234.50 USD"%string).
Proof.
  apply parse_price_ignores_other_characters;
    [discriminate | discriminate | reflexivity].
Defined.

(** ** Reading whole numbers *)

Lemma scan_digits_printed (r : string) :
  forall (d : Decimal.uint) (acc n : nat),
    scan_digits (DecimalString.NilEmpty.string_of_uint d ++ r) (Z.of_nat acc) n
    = scan_digits r (Z.of_nat (Nat.of_uint_acc d acc))
        (n + Decimal.nb_digits d).
Proof.
  induction d; intros acc n;
    cbn [DecimalString.NilEmpty.string_of_uint String.append
         Nat.of_uint_acc Decimal.nb_digits];
    [now rewrite Nat.add_0_r|..];
    cbn [scan_digits];
    match goal with
    | |- context [is_digit ?c] =>
        change (is_digit c) with true; cbv iota
    end;
    rewrite <- Nat.add_succ_comm, <- IHd; f_equal;
    rewrite Nat.tail_mul_spec;
    match goal with
    | |- context [digit_value ?c] =>
        let v := eval vm_compute in (digit_value c) in
        change (digit_value c) with v
    end; lia.
Qed.

Lemma re_sub_printed (r : string) :
  forall d : Decimal.uint,
    re_sub_non_numeric (DecimalString.NilEmpty.string_of_uint d ++ r)
    = (DecimalString.NilEmpty.string_of_uint d ++ re_sub_non_numeric r)%string.
Proof.
  induction d;
    cbn [DecimalString.NilEmpty.string_of_uint String.append];
    [reflexivity|..];
    cbn [re_sub_non_numeric];
    match goal with
    | |- context [is_digit ?c] => change (is_digit c) with true
    end; cbn [orb]; now rewrite IHd.
Qed.

Lemma append_empty (s : string) : (s ++ "")%string = s.
Proof. induction s as [|c s IH]; [reflexivity|]. simpl. now rewrite IH. Qed.

(** Round trip: a whole number of dollars below 2^53 (up to there a
    float64 holds every whole number), printed in decimal after a dollar
    sign, parses back to that number. *)
Theorem parse_price_of_printed_dollars (n : nat) :
  (Z.of_nat n < 2 ^ 53)%Z ->
  parse_price (Some ("$" ++ DecimalString.NilEmpty.string_of_uint (Nat.to_uint n))%string)
  = Some (inject_Z (Z.of_nat n)).
Proof.
  intros _.
  rewrite parse_price_cleaned by discriminate.
  change (re_sub_non_numeric ("$" ++ DecimalString.NilEmpty.string_of_uint (Nat.to_uint n)))
    with (re_sub_non_numeric (DecimalString.NilEmpty.string_of_uint (Nat.to_uint n))).
  rewrite <- (append_empty (DecimalString.NilEmpty.string_of_uint (Nat.to_uint n))).
  rewrite re_sub_printed. cbn [re_sub_non_numeric].
  unfold py_float.
  pose proof (scan_digits_printed "" (Nat.to_uint n) 0 0) as E.
  cbn [Z.of_nat] in E. rewrite E. cbn [scan_digits].
  fold (Nat.of_uint (Nat.to_uint n)). rewrite DecimalNat.Unsigned.of_to.
  replace (0 + Decimal.nb_digits (Nat.to_uint n) =? 0)%nat with false;
    [reflexivity|].
  symmetry. apply Nat.eqb_neq.
  assert (Hnn : Nat.to_uint n <> Decimal.Nil).
  { rewrite <- (DecimalNat.Unsigned.of_to n) at 1.
    rewrite DecimalNat.Unsigned.to_of. apply DecimalFacts.unorm_nonnil. }
  destruct (Nat.to_uint n); simpl; congruence || lia.
Qed.

Lemma parse_price_of_printed_dollars_witness :
  parse_price (Some "$150"%string) = Some 150.
Proof.
  apply (parse_price_of_printed_dollars 150). reflexivity.
Defined.

(** * The screener: [get_tickers] *)

Lemma insert_by_price_perm (r : string * Q) (l : list (string * Q)) :
  Permutation (insert_by_price r l) (r :: l).
Proof.
  induction l as [|x l IH]; simpl; [reflexivity|].
  destruct (Qltb (snd x) (snd r)); [reflexivity|].
  rewrite IH. apply perm_swap.
Qed.

Lemma insert_by_price_sorted (r : string * Q) (l : list (string * Q)) :
  StronglySorted (fun a b => snd b <= snd a) l ->
  StronglySorted (fun a b => snd b <= snd a) (insert_by_price r l).
Proof.
  induction 1 as [|x l Hs IH Hall]; simpl.
  - repeat constructor.
  - destruct (Qltb (snd x) (snd r)) eqn:E.
    + apply Qltb_lt in E. constructor; [now constructor|].
      constructor; [lra|].
      eapply Forall_impl; [|exact Hall]. cbn. intros a Ha. lra.
    + apply Qltb_ge in E. constructor; [exact IH|].
      eapply Permutation_Forall;
        [symmetry; apply insert_by_price_perm|].
      now constructor.
Qed.

Lemma insertion_sort_sorts : sorts_by_price_descending insertion_sort.
Proof.
  intros l. unfold insertion_sort. induction l as [|x l [IHp IHs]]; simpl.
  - split; constructor.
  - split.
    + rewrite insert_by_price_perm. now constructor.
    + now apply insert_by_price_sorted.
Qed.

Lemma In_priced_rows (rows : list ScreenerRow) (s : string) (p : Q) :
  In (s, p) (priced_rows rows) <->
  exists row, In row rows /\ symbol row = Some s /\
              parse_price (lastsale row) = Some p.
Proof.
  unfold priced_rows. rewrite in_flat_map. split.
  - intros (row & Hin & H). exists row. split; [exact Hin|].
    destruct (symbol row) as [s'|]; [|contradiction].
    destruct (parse_price (lastsale row)) as [p'|]; [|contradiction].
    destruct H as [[= <- <-]|[]]. auto.
  - intros (row & Hin & Hs & Hp). exists row. split; [exact Hin|].
    rewrite Hs, Hp. now left.
Qed.

Lemma length_priced_rows (rows : list ScreenerRow) :
  (length (priced_rows rows) <= length rows)%nat.
Proof.
  unfold priced_rows. induction rows as [|r rows IH]; simpl; [lia|].
  rewrite length_app.
  destruct (symbol r); [destruct (parse_price (lastsale r))|]; simpl; lia.
Qed.

Lemma over_is_not_under (f : string) :
  str_in f ["over_50"; "over50"]%string = true ->
  str_in f ["under_50"; "under50"]%string = false.
Proof.
  unfold str_in. cbn [existsb]. rewrite !orb_false_r, orb_true_iff.
  intros [H|H]; apply String.eqb_eq in H; subst f; reflexivity.
Qed.

Lemma In_filter_rows (f : string) (l : list (string * Q)) (x : string * Q) :
  In x (filter_rows f l) ->
  In x l /\
  (str_in f ["under_50"; "under50"]%string = true -> snd x < 50) /\
  (str_in f ["over_50"; "over50"]%string = true -> 50 <= snd x).
Proof.
  unfold filter_rows. intros H.
  destruct (str_in f ["under_50"; "under50"]%string) eqn:Eu.
  - apply filter_In in H. destruct H as [Hin Hlt]. apply Qltb_lt in Hlt.
    repeat split; auto. intros Ho. apply over_is_not_under in Ho. congruence.
  - destruct (str_in f ["over_50"; "over50"]%string) eqn:Eo.
    + apply filter_In in H. destruct H as [Hin Hge].
      apply negb_true_iff, Qltb_ge in Hge. repeat split; auto; discriminate.
    + repeat split; auto; discriminate.
Qed.

Lemma In_select_rows (sort_values : list (string * Q) -> list (string * Q))
    (f : string) (limit : nat) (rows : list ScreenerRow) (x : string * Q) :
  sorts_by_price_descending sort_values ->
  In x (select_rows sort_values f limit rows) ->
  In x (filter_rows f (positive_rows (priced_rows rows))).
Proof.
  intros Hsort Hin. unfold select_rows in Hin.
  apply (Permutation_in _ (proj1 (Hsort _))).
  rewrite <- (firstn_skipn limit). apply in_or_app. now left.
Qed.

(** Both files return at most [limit] symbols. *)
Theorem get_tickers_at_most_limit
    (fetch_rows : string -> option (list ScreenerRow))
    (sort_values : list (string * Q) -> list (string * Q))
    (price_filter : option string) (limit : nat) :
  (length (ScanPy.get_tickers fetch_rows sort_values price_filter limit)
   <= limit)%nat /\
  (length (ScanDisabledPy.get_tickers fetch_rows sort_values price_filter limit)
   <= limit)%nat.
Proof.
  unfold ScanPy.get_tickers, ScanDisabledPy.get_tickers, select_rows.
  split; [destruct price_filter; [|simpl; lia]|];
    rewrite length_map, length_firstn; apply Nat.le_min_l.
Qed.

(** Every symbol that [get_tickers] returns is the symbol of a screener row
    whose last sale parses to a price above zero, below 50 under the
    filter "under_50" or "under50", and at least 50 under "over_50" or
    "over50", whatever the case of the letters of the filter. *)
Theorem get_tickers_sound
    (fetch_rows : string -> option (list ScreenerRow))
    (sort_values : list (string * Q) -> list (string * Q))
    (f : string) (limit : nat) (sym : string) :
  sorts_by_price_descending sort_values ->
  In sym (ScanPy.get_tickers fetch_rows sort_values (Some f) limit) ->
  exists row p,
    In row (get_all_screener_data fetch_rows) /\
    symbol row = Some sym /\
    parse_price (lastsale row) = Some p /\
    0 < p /\
    (str_in (lower f) ["under_50"; "under50"]%string = true -> p < 50) /\
    (str_in (lower f) ["over_50"; "over50"]%string = true -> 50 <= p).
Proof.
  intros Hsort Hin. unfold ScanPy.get_tickers in Hin.
  apply in_map_iff in Hin. destruct Hin as ([s p] & E & Hin).
  cbn in E. subst s.
  apply (In_select_rows _ _ _ _ _ Hsort) in Hin.
  apply In_filter_rows in Hin. destruct Hin as (Hin & Hu & Ho).
  apply filter_In in Hin. destruct Hin as [Hin Hpos].
  apply Qltb_lt in Hpos. apply In_priced_rows in Hin.
  destruct Hin as (row & Hrow & Hs & Hp).
  exists row, p. auto 10.
Qed.

Lemma get_tickers_sound_witness :
  exists row p,
    In row (get_all_screener_data sample_fetch) /\
    symbol row = Some "CCC"%string /\
    parse_price (lastsale row) = Some p /\
    0 < p /\
    (str_in (lower "Under_50") ["under_50"; "under50"]%string = true ->
     p < 50) /\
    (str_in (lower "Under_50") ["over_50"; "over50"]%string = true ->
     50 <= p).
Proof.
  apply (get_tickers_sound sample_fetch insertion_sort "Under_50" 300).
  - exact insertion_sort_sorts.
  - vm_compute. left. reflexivity.
Defined.

Lemma StronglySorted_firstn {A : Type} (R : A -> A -> Prop) :
  forall (n : nat) (l : list A),
    StronglySorted R l -> StronglySorted R (firstn n l).
Proof.
  induction n as [|n IH]; intros l H; [constructor|].
  destruct H as [|x l Hs Hall]; simpl; constructor; auto.
  now apply Forall_firstn.
Qed.

Lemma StronglySorted_split {A : Type} (R : A -> A -> Prop) :
  forall (n : nat) (l : list A),
    StronglySorted R l ->
    forall a b, In a (firstn n l) -> In b (skipn n l) -> R a b.
Proof.
  induction n as [|n IH]; intros l H a b Ha Hb; [contradiction|].
  destruct H as [|x l Hs Hall]; [contradiction|].
  simpl in Ha, Hb. destruct Ha as [<-|Ha].
  - rewrite Forall_forall in Hall. apply Hall.
    rewrite <- (firstn_skipn n l). apply in_or_app. now right.
  - now apply (IH l Hs).
Qed.

(** The symbols returned are those of the highest-priced eligible rows, by
    price from high to low: the eligible rows split into the selected ones,
    in the order returned, and the others, none of which has a higher price
    than a selected one. *)
Theorem get_tickers_highest_prices
    (fetch_rows : string -> option (list ScreenerRow))
    (sort_values : list (string * Q) -> list (string * Q))
    (f : string) (limit : nat) :
  sorts_by_price_descending sort_values ->
  exists selected others,
    ScanPy.get_tickers fetch_rows sort_values (Some f) limit
    = map fst selected /\
    Permutation (selected ++ others)
      (filter_rows (lower f)
         (positive_rows (priced_rows (get_all_screener_data fetch_rows)))) /\
    StronglySorted (fun a b => snd b <= snd a) selected /\
    (forall a b, In a selected -> In b others -> snd b <= snd a).
Proof.
  intros Hsort.
  set (eligible := filter_rows (lower f)
         (positive_rows (priced_rows (get_all_screener_data fetch_rows)))).
  destruct (Hsort eligible) as [Hperm Hsorted].
  exists (firstn limit (sort_values eligible)),
         (skipn limit (sort_values eligible)).
  split; [reflexivity|]. split; [now rewrite firstn_skipn|].
  split; [now apply StronglySorted_firstn|].
  intros a b.
  exact (StronglySorted_split (fun a b => snd b <= snd a) limit
           (sort_values eligible) Hsorted a b).
Qed.

Lemma get_tickers_highest_prices_witness :
  exists selected others,
    ScanPy.get_tickers sample_fetch insertion_sort (Some "all"%string) 1
    = map fst selected /\
    Permutation (selected ++ others)
      (filter_rows (lower "all")
         (positive_rows (priced_rows (get_all_screener_data sample_fetch)))) /\
    StronglySorted (fun a b => snd b <= snd a) selected /\
    (forall a b, In a selected -> In b others -> snd b <= snd a).
Proof.
  apply (get_tickers_highest_prices sample_fetch insertion_sort "all" 1).
  exact insertion_sort_sorts.
Defined.

Lemma filter_partition {A : Type} (p : A -> bool) (l : list A) :
  Permutation l (filter p l ++ filter (fun x => negb (p x)) l).
Proof.
  induction l as [|x l IH]; [constructor|]. simpl.
  destruct (p x); simpl.
  - now constructor.
  - now apply Permutation_cons_app.
Qed.

(** When the limit does not cut the list, the symbols under the filter
    "all" are those under "under_50" together with those under "over_50":
    every priced symbol is on exactly one side of 50. *)
Theorem under_and_over_partition
    (fetch_rows : string -> option (list ScreenerRow))
    (sort_values : list (string * Q) -> list (string * Q))
    (limit : nat) :
  sorts_by_price_descending sort_values ->
  (length (get_all_screener_data fetch_rows) <= limit)%nat ->
  Permutation
    (ScanPy.get_tickers fetch_rows sort_values (Some "all"%string) limit)
    (ScanPy.get_tickers fetch_rows sort_values (Some "under_50"%string) limit
     ++ ScanPy.get_tickers fetch_rows sort_values (Some "over_50"%string)
          limit).
Proof.
  intros Hsort Hlimit. unfold ScanPy.get_tickers, select_rows.
  set (rows := positive_rows (priced_rows (get_all_screener_data fetch_rows))).
  assert (Hlen : (length rows <= limit)%nat).
  { unfold rows, positive_rows.
    eapply Nat.le_trans; [apply filter_length_le|].
    eapply Nat.le_trans; [apply length_priced_rows|exact Hlimit]. }
  change (filter_rows (lower "all") rows) with rows.
  change (filter_rows (lower "under_50") rows)
    with (filter (fun r => Qltb (snd r) 50) rows).
  change (filter_rows (lower "over_50") rows)
    with (filter (fun r => negb (Qltb (snd r) 50)) rows).
  assert (Hall : forall l, (length l <= limit)%nat ->
                           firstn limit (sort_values l) = sort_values l).
  { intros l Hl. apply firstn_all2.
    now rewrite (Permutation_length (proj1 (Hsort l))). }
  rewrite !Hall; try (eapply Nat.le_trans; [apply filter_length_le|exact Hlen]);
    try exact Hlen.
  rewrite <- map_app. apply Permutation_map.
  rewrite (proj1 (Hsort rows)), (proj1 (Hsort (filter _ rows))),
    (proj1 (Hsort (filter (fun r => negb _) rows))).
  apply filter_partition.
Qed.

Lemma under_and_over_partition_witness :
  Permutation
    (ScanPy.get_tickers sample_fetch insertion_sort (Some "all"%string) 300)
    (ScanPy.get_tickers sample_fetch insertion_sort (Some "under_50"%string) 300
     ++ ScanPy.get_tickers sample_fetch insertion_sort (Some "over_50"%string)
          300).
Proof.
  apply (under_and_over_partition sample_fetch insertion_sort 300).
  - exact insertion_sort_sorts.
  - vm_compute. lia.
Defined.

Lemma get_tickers_agree_on_strings
    (fetch_rows : string -> option (list ScreenerRow))
    (sort_values : list (string * Q) -> list (string * Q))
    (f : string) (limit : nat) :
  ScanDisabledPy.get_tickers fetch_rows sort_values (Some f) limit
  = ScanPy.get_tickers fetch_rows sort_values (Some f) limit.
Proof.
  unfold ScanDisabledPy.get_tickers, ScanPy.get_tickers.
  destruct (String.eqb_spec f "") as [->|]; reflexivity.
Qed.

(** On a filter that is a string the two files return the same symbols.
    On [None] they differ: src/scan.py returns no symbol, and
    src/api/scan_disabled.py takes it for "all". *)
Theorem get_tickers_two_files
    (fetch_rows : string -> option (list ScreenerRow))
    (sort_values : list (string * Q) -> list (string * Q))
    (limit : nat) :
  (forall f,
     ScanDisabledPy.get_tickers fetch_rows sort_values (Some f) limit
     = ScanPy.get_tickers fetch_rows sort_values (Some f) limit) /\
  ScanPy.get_tickers fetch_rows sort_values None limit = [] /\
  ScanDisabledPy.get_tickers fetch_rows sort_values None limit
  = ScanPy.get_tickers fetch_rows sort_values (Some "all"%string) limit.
Proof.
  split; [|split; reflexivity].
  intros f. apply get_tickers_agree_on_strings.
Qed.

(** * The scan loop and the handlers *)

Section ScanLoop.
Context {date : Type}.
Variable strftime : date -> string.
Variable calc : DataFrame -> result Technicals.
Variable download : nat -> string -> option (list (date * Bar)).

Lemma scan_loop_full (tickers : list string) (results : list ScanResult)
    (calls : list string) :
  (3 <= length results)%nat ->
  scan_loop strftime calc download tickers results calls = (results, calls).
Proof.
  intros H. destruct tickers as [|sym rest]; [reflexivity|].
  cbn [scan_loop]. apply Nat.leb_le in H. now rewrite H.
Qed.

Lemma scan_loop_results : forall (tickers : list string)
    (results : list ScanResult) (calls : list string),
  (length results <= 3)%nat ->
  fst (scan_loop strftime calc download tickers results calls)
  = firstn 3 (results ++ hits_from strftime calc download (length calls)
                           tickers).
Proof.
  induction tickers as [|sym rest IH]; intros results calls Hle.
  - cbn [scan_loop hits_from fst]. rewrite app_nil_r. symmetry.
    now apply firstn_all2.
  - cbn [scan_loop hits_from].
    destruct (Nat.leb_spec 3 (length results)) as [Hge|Hlt].
    + cbn [fst]. rewrite firstn_app.
      replace (3 - length results)%nat with 0%nat by lia.
      rewrite firstn_all2 by lia. rewrite firstn_0. now rewrite app_nil_r.
    + destruct (scan_symbol strftime calc sym (download (length calls) sym))
        as [r|].
      * rewrite IH by (rewrite length_app; simpl; lia).
        rewrite length_app, Nat.add_1_r, <- app_assoc. reflexivity.
      * rewrite IH by lia. rewrite length_app, Nat.add_1_r. reflexivity.
Qed.

Lemma scan_symbol_symbol (sym : string)
    (history : option (list (date * Bar))) (r : ScanResult) :
  scan_symbol strftime calc sym history = Some r -> out_symbol r = sym.
Proof.
  unfold scan_symbol. destruct history as [rows|]; [|discriminate].
  destruct (length (map snd rows) <? 60)%nat; [discriminate|].
  destruct (calc (map snd rows)) as [tech|]; [|discriminate].
  destruct (negb (res_valid tech)); [discriminate|]. now intros [= <-].
Qed.

Lemma scan_loop_calls : forall (tickers : list string)
    (results : list ScanResult) (calls : list string)
    (res : list ScanResult) (cs : list string),
  scan_loop strftime calc download tickers results calls = (res, cs) ->
  (exists n, cs = calls ++ firstn n tickers /\
             ((length res < 3)%nat -> n = length tickers)) /\
  ((length results < 3)%nat -> (3 <= length res)%nat ->
   exists res0 r c0, res = res0 ++ [r] /\ cs = c0 ++ [out_symbol r]).
Proof.
  induction tickers as [|sym rest IH]; intros results calls res cs H.
  - cbn in H. injection H as <- <-. split.
    + exists 0%nat. cbn. now rewrite app_nil_r.
    + intros. lia.
  - cbn [scan_loop] in H.
    destruct (Nat.leb_spec 3 (length results)) as [Hge|Hlt].
    + injection H as <- <-. split.
      * exists 0%nat. cbn. rewrite app_nil_r. split; [reflexivity|lia].
      * intros. lia.
    + destruct (scan_symbol strftime calc sym (download (length calls) sym))
        as [r|] eqn:Er.
      * pose proof (scan_symbol_symbol _ _ _ Er) as Hsym.
        destruct (Nat.leb_spec 3 (length (results ++ [r]))) as [Hfull|Hmore].
        -- rewrite scan_loop_full in H by exact Hfull.
           injection H as <- <-. split.
           ++ exists 1%nat. cbn [firstn]. split; [reflexivity|]. lia.
           ++ intros _ _. exists results, r, calls. now rewrite Hsym.
        -- destruct (IH _ _ _ _ H) as [(n & Hcs & Hn) Hlast]. split.
           ++ exists (S n). cbn [firstn length].
              rewrite Hcs, <- app_assoc. split; [reflexivity|].
              intros Hres. now rewrite Hn.
           ++ intros _. now apply Hlast.
      * destruct (IH _ _ _ _ H) as [(n & Hcs & Hn) Hlast]. split.
        -- exists (S n). cbn [firstn length].
           rewrite Hcs, <- app_assoc. split; [reflexivity|].
           intros Hres. now rewrite Hn.
        -- intros _. now apply Hlast.
Qed.

Lemma In_hits_from : forall (tickers : list string) (k : nat)
    (r : ScanResult),
  In r (hits_from strftime calc download k tickers) ->
  exists sym j,
    In sym tickers /\
    scan_symbol strftime calc sym (download j sym) = Some r.
Proof.
  induction tickers as [|sym rest IH]; intros k r Hin; [contradiction|].
  cbn [hits_from] in Hin.
  destruct (scan_symbol strftime calc sym (download k sym)) as [r0|] eqn:E.
  - destruct Hin as [<-|Hin].
    + exists sym, k. split; [now left|exact E].
    + destruct (IH _ _ Hin) as (s & j & Hs & Hj).
      exists s, j. split; [now right|exact Hj].
  - destruct (IH _ _ Hin) as (s & j & Hs & Hj).
    exists s, j. split; [now right|exact Hj].
Qed.

Lemma hits_from_no_download : forall (tickers : list string) (k : nat),
  (forall j sym, download j sym = None) ->
  hits_from strftime calc download k tickers = [].
Proof.
  induction tickers as [|sym rest IH]; intros k H; [reflexivity|].
  cbn [hits_from]. rewrite H. cbn. now apply IH.
Qed.

End ScanLoop.

Lemma scan_loop_ext {date : Type} (strftime : date -> string)
    (calc1 calc2 : DataFrame -> result Technicals)
    (download : nat -> string -> option (list (date * Bar))) :
  (forall df, calc1 df = calc2 df) ->
  forall tickers results calls,
    scan_loop strftime calc1 download tickers results calls
    = scan_loop strftime calc2 download tickers results calls.
Proof.
  intros Hext. induction tickers as [|sym rest IH]; intros results calls;
    [reflexivity|].
  cbn [scan_loop]. unfold scan_symbol.
  destruct (download (length calls) sym) as [rows|]; [|now rewrite IH].
  destruct (length (map snd rows) <? 60)%nat; [now rewrite IH|].
  rewrite Hext. destruct (calc2 (map snd rows)) as [tech|]; [|now rewrite IH].
  destruct (negb (res_valid tech)); now rewrite IH.
Qed.

Section Handlers.
Context {date : Type}.
Variable strftime : date -> string.
Variable fetch_rows : string -> option (list ScreenerRow).
Variable sort_values : list (string * Q) -> list (string * Q).
Variable download : nat -> string -> option (list (date * Bar)).

Lemma scan_disabled_as_scan (tickers : list string) :
  scan_loop strftime ScanDisabled.calculate_technicals download tickers [] []
  = scan_loop strftime Scan.calculate_technicals download tickers [] [].
Proof. apply scan_loop_ext. exact calculate_technicals_agree. Qed.

(** What an entry of the response holds, for the engine of src/scan.py. *)
Lemma scan_symbol_inv (sym : string) (history : option (list (date * Bar)))
    (r : ScanResult) :
  scan_symbol strftime Scan.calculate_technicals sym history = Some r ->
  exists rows,
    history = Some rows /\ (60 <= length rows)%nat /\
    out_symbol r = sym /\
    out_dates r = map (fun x => strftime (fst x)) rows /\
    out_opens r = map Open (map snd rows) /\
    out_highs r = map High (map snd rows) /\
    out_lows r = map Low (map snd rows) /\
    out_closes r = map Close (map snd rows) /\
    out_sma20 r = Scan.sma20 (map snd rows) /\
    out_sma50 r = Scan.sma50 (map snd rows) /\
    Scan.calculate_technicals (map snd rows)
    = Ok {| res_sma20 := out_sma20 r; res_sma50 := out_sma50 r;
            res_valid := true; res_setup := out_setup r |}.
Proof.
  unfold scan_symbol. destruct history as [rows|]; [|discriminate].
  destruct (Nat.ltb_spec (length (map snd rows)) 60) as [|Hlen];
    [discriminate|].
  rewrite length_map in Hlen.
  assert (Hne : map snd rows <> []).
  { intros E. apply (f_equal (@length Bar)) in E.
    rewrite length_map in E. simpl in E. lia. }
  rewrite (calculate_technicals_refines _ Hne). cbn [res_valid].
  destruct (breakout_rule (map snd rows) || pullback_rule (map snd rows)
            || momentum_rule (map snd rows))%bool eqn:Ev; [|discriminate].
  cbn [negb]. intros [= <-]. exists rows.
  cbn [out_symbol out_dates out_opens out_highs out_lows out_closes
       out_sma20 out_sma50 out_setup res_sma20 res_sma50 res_setup].
  repeat split; auto.
  now rewrite (calculate_technicals_refines _ Hne), Ev.
Qed.

(** On every request of the three kinds above, both handlers answer with
    the first three hits: the results that the tickers give, in the order
    of the tickers, cut after the third. *)
Theorem handler_first_three_hits (req : request) :
  results (ScanPy.handler strftime fetch_rows sort_values download req)
  = firstn 3
      (hits_from strftime Scan.calculate_technicals download 0
         (ScanPy.get_tickers fetch_rows sort_values
            (Some (ScanPy.price_filter_of req)) 300)) /\
  results
    (ScanDisabledPy.handler strftime fetch_rows sort_values download req)
  = firstn 3
      (hits_from strftime ScanDisabled.calculate_technicals download 0
         (ScanDisabledPy.get_tickers fetch_rows sort_values
            (Some (ScanDisabledPy.price_filter_of req)) 300)).
Proof.
  split;
    unfold ScanPy.handler, ScanPy.scan, ScanDisabledPy.handler,
      ScanDisabledPy.scan; cbn [results];
    rewrite scan_loop_results by (simpl; lia); reflexivity.
Qed.

(** Every entry of the response of src/scan.py comes from a ticker of the
    screener whose history has at least 60 bars; its seven arrays have one
    entry per bar, and its setup is one of the three setups, never the
    no-setup label. *)
Theorem handler_results_well_formed (req : request) (r : ScanResult) :
  In r (results (ScanPy.handler strftime fetch_rows sort_values download req))
  ->
  In (out_symbol r)
     (ScanPy.get_tickers fetch_rows sort_values
        (Some (ScanPy.price_filter_of req)) 300) /\
  (60 <= length (out_closes r))%nat /\
  length (out_dates r) = length (out_closes r) /\
  length (out_opens r) = length (out_closes r) /\
  length (out_highs r) = length (out_closes r) /\
  length (out_lows r) = length (out_closes r) /\
  length (out_sma20 r) = length (out_closes r) /\
  length (out_sma50 r) = length (out_closes r) /\
  (out_setup r = Breakout \/ out_setup r = PullbackBounce \/
   out_setup r = BullishMomentum).
Proof.
  intros Hin. unfold ScanPy.handler, ScanPy.scan in Hin. cbn [results] in Hin.
  rewrite scan_loop_results in Hin by (simpl; lia). cbn [app length] in Hin.
  assert (Hin' : In r (hits_from strftime Scan.calculate_technicals download 0
                         (ScanPy.get_tickers fetch_rows sort_values
                            (Some (ScanPy.price_filter_of req)) 300))).
  { rewrite <- (firstn_skipn 3). apply in_or_app. now left. }
  apply In_hits_from in Hin'. destruct Hin' as (sym & j & Hsym & Hr).
  apply scan_symbol_inv in Hr.
  destruct Hr as (rows & _ & Hlen & E0 & E1 & E2 & E3 & E4 & E5 & E6 & E7
                  & Hcalc).
  rewrite E0, E1, E2, E3, E4, E5, E6, E7.
  rewrite length_sma20, length_sma50, !length_map.
  repeat split; auto.
  assert (Hne : map snd rows <> []).
  { intros E. apply (f_equal (@length Bar)) in E.
    rewrite length_map in E. simpl in E. lia. }
  rewrite (calculate_technicals_refines _ Hne) in Hcalc.
  injection Hcalc as _ _ Hv Hs. rewrite <- Hs. unfold label_of.
  destruct (breakout_rule (map snd rows)); [auto|].
  destruct (pullback_rule (map snd rows)); [auto|].
  destruct (momentum_rule (map snd rows)); [auto|discriminate].
Qed.

(** The handler of src/scan.py downloads the tickers in their order.  With
    fewer than three results it has downloaded every ticker; with three,
    the last download is the one that gave the third result: no symbol is
    downloaded after it. *)
Theorem handler_stops_downloading (req : request)
    (res : list ScanResult) (cs : list string) :
  ScanPy.scan strftime fetch_rows sort_values download req = (res, cs) ->
  (exists n,
     cs = firstn n (ScanPy.get_tickers fetch_rows sort_values
                      (Some (ScanPy.price_filter_of req)) 300)) /\
  ((length res < 3)%nat ->
   cs = ScanPy.get_tickers fetch_rows sort_values
          (Some (ScanPy.price_filter_of req)) 300) /\
  ((3 <= length res)%nat ->
   exists res0 r c0, res = res0 ++ [r] /\ cs = c0 ++ [out_symbol r]).
Proof.
  unfold ScanPy.scan. intros H.
  destruct (scan_loop_calls _ _ _ _ _ _ _ _ H) as [(n & Hcs & Hn) Hlast].
  cbn [app] in Hcs. split; [now exists n|]. split.
  - intros Hres. rewrite Hcs, (Hn Hres). apply firstn_all.
  - intros Hres. apply Hlast; [simpl; lia|exact Hres].
Qed.

(** As the module says: when every screener request fails, nothing is
    downloaded and the response is empty; when every download fails, the
    response is empty.  No fallback data is substituted. *)
Theorem handler_empty_on_failures (req : request) :
  sorts_by_price_descending sort_values ->
  ((forall ex, fetch_rows ex = None) ->
   ScanPy.scan strftime fetch_rows sort_values download req = ([], [])) /\
  ((forall k sym, download k sym = None) ->
   results (ScanPy.handler strftime fetch_rows sort_values download req)
   = []).
Proof.
  intros Hsort. split.
  - intros Hfail. unfold ScanPy.scan, ScanPy.get_tickers, select_rows,
      get_all_screener_data.
    cbn [fold_left exchanges]. rewrite !Hfail.
    cbn [priced_rows flat_map positive_rows filter].
    replace (filter_rows _ []) with (@nil (string * Q))
      by (unfold filter_rows;
          repeat match goal with |- context [if ?c then _ else _] =>
                   destruct c end; reflexivity).
    rewrite (Permutation_nil (Permutation_sym (proj1 (Hsort [])))).
    reflexivity.
  - intros Hfail. unfold ScanPy.handler, ScanPy.scan. cbn [results].
    rewrite scan_loop_results by (simpl; lia).
    now rewrite hits_from_no_download.
Qed.

(** On a request object whose [args] is a mapping of strings, and on a
    value that has no [args] attribute and is not a dictionary, the two
    handlers download the same symbols and give the same response. *)
Theorem handlers_agree_on_flask_requests (req : request) :
  match req with EventDict _ _ => False | _ => True end ->
  ScanDisabledPy.scan strftime fetch_rows sort_values download req
  = ScanPy.scan strftime fetch_rows sort_values download req /\
  ScanDisabledPy.handler strftime fetch_rows sort_values download req
  = ScanPy.handler strftime fetch_rows sort_values download req.
Proof.
  intros Hreq.
  assert (Hpf : ScanDisabledPy.price_filter_of req
                = ScanPy.price_filter_of req).
  { destruct req as [[|e args]| |]; [reflexivity|reflexivity|
                                      contradiction|reflexivity]. }
  assert (Hscan : ScanDisabledPy.scan strftime fetch_rows sort_values
                    download req
                  = ScanPy.scan strftime fetch_rows sort_values download req).
  { unfold ScanDisabledPy.scan, ScanPy.scan.
    rewrite scan_disabled_as_scan, Hpf.
    now rewrite get_tickers_agree_on_strings. }
  split; [exact Hscan|].
  unfold ScanDisabledPy.handler, ScanPy.handler. now rewrite Hscan.
Qed.

End Handlers.

Lemma handler_results_well_formed_witness :
  (60 <=
   length (out_closes
             (hd (mkScanResult "" [] [] [] [] [] [] [] "")
                (results (ScanPy.handler sample_strftime sample_fetch
                            insertion_sort sample_download
                            (FlaskRequest []))))))%nat.
Proof.
  apply (handler_results_well_formed sample_strftime sample_fetch
           insertion_sort sample_download (FlaskRequest [])).
  vm_compute. left. reflexivity.
Defined.

Lemma handler_stops_downloading_witness :
  snd (ScanPy.scan sample_strftime sample_fetch insertion_sort
         sample_download (FlaskRequest []))
  = ScanPy.get_tickers sample_fetch insertion_sort
      (Some (ScanPy.price_filter_of (FlaskRequest []))) 300.
Proof.
  apply (handler_stops_downloading sample_strftime sample_fetch
           insertion_sort sample_download (FlaskRequest [])
           (fst (ScanPy.scan sample_strftime sample_fetch insertion_sort
                   sample_download (FlaskRequest [])))).
  - apply surjective_pairing.
  - vm_compute. lia.
Defined.

Lemma handler_empty_on_failures_witness :
  ScanPy.scan sample_strftime (fun _ => None) insertion_sort sample_download
    OtherRequest = ([], []) /\
  results (ScanPy.handler sample_strftime sample_fetch insertion_sort
             (fun _ _ => None) OtherRequest) = [].
Proof.
  split.
  - apply (handler_empty_on_failures sample_strftime (fun _ => None)
             insertion_sort sample_download OtherRequest
             insertion_sort_sorts).
    reflexivity.
  - apply (handler_empty_on_failures sample_strftime sample_fetch
             insertion_sort (fun _ _ => None) OtherRequest
             insertion_sort_sorts).
    reflexivity.
Defined.

Lemma handlers_agree_on_flask_requests_witness :
  ScanDisabledPy.handler sample_strftime sample_fetch insertion_sort
    sample_download (FlaskRequest [("priceFilter", "Over50")]%string)
  = ScanPy.handler sample_strftime sample_fetch insertion_sort
      sample_download (FlaskRequest [("priceFilter", "Over50")]%string).
Proof.
  apply (handlers_agree_on_flask_requests sample_strftime sample_fetch
           insertion_sort sample_download
           (FlaskRequest [("priceFilter", "Over50")]%string)).
  exact I.
Defined.

(** On a plain dictionary the two handlers part: src/scan.py never reads
    it and scans with "all", src/api/scan_disabled.py reads the filter from
    its ["query"], or from its ["args"] when the query is missing or empty;
    there is a screener, a price history and an event for which the two
    responses differ. *)
Theorem handlers_differ_on_event_dicts :
  (forall query args,
     ScanPy.price_filter_of (EventDict query args) = "all"%string) /\
  (forall e q args,
     ScanDisabledPy.price_filter_of (EventDict (Some (e :: q)) args)
     = dict_get (e :: q) "priceFilter" "all") /\
  (forall args,
     ScanDisabledPy.price_filter_of (EventDict None (Some args))
     = dict_get args "priceFilter" "all" /\
     ScanDisabledPy.price_filter_of (EventDict (Some []) (Some args))
     = dict_get args "priceFilter" "all") /\
  map out_symbol
    (results (ScanPy.handler sample_strftime sample_fetch insertion_sort
                sample_download
                (EventDict (Some [("priceFilter", "under50")]%string) None)))
  = ["AAA"%string] /\
  results (ScanDisabledPy.handler sample_strftime sample_fetch insertion_sort
             sample_download
             (EventDict (Some [("priceFilter", "under50")]%string) None))
  = [].
Proof.
  split; [reflexivity|]. split; [reflexivity|]. split; [now split|].
  split; vm_compute; reflexivity.
Qed.
